(** * Button debouncer (global pull-up flag variant)

    A shallow embedding of the C++ class [Debouncer] (button_debounce.h /
    button_debounce.cpp): the constructor, [ButtonProcess], [ButtonPressed],
    [ButtonReleased] and [ButtonDebouncedStateGet], followed by the
    properties of the debouncing state machine.

    Conventions of the embedding:
    - a [uint8_t] is a [Z] in [0, 256); the conversion of an [int] result
      back to [uint8_t] is written out as [wrap8];
    - the object is a record; the member array [state] is a list indexed
      with stdpp's lookup and insert;
    - every member function is a computation over the object that either
      finishes with a value and the new object, performs an array access
      out of bounds ([Undefined]), or never leaves a loop ([Diverges]);
    - the macros [MAX_BUTTON_CHECKS] and [USING_BUTTON_PULLUPS] can be
      overridden at compile time, so they are parameters of the model. *)

From Stdlib Require Import ZArith Lia Bool List.
From stdpp Require Import base list.
Import ListNotations.

Local Open Scope Z_scope.

(** ** Fixed-width integers *)

Definition wrap8 (z : Z) : Z := z mod 256.

Definition is_uint8 (z : Z) : Prop := 0 <= z < 256.

(** ** The object *)

Record Debouncer : Type := mkDebouncer {
  state : list Z;          (* uint8_t state[MAX_BUTTON_CHECKS] *)
  index : Z;               (* uint8_t index *)
  debouncedState : Z;      (* uint8_t debouncedState *)
  changed : Z              (* uint8_t changed *)
}.

(** ** Computations over the object *)

Inductive outcome (A : Type) : Type :=
| Done (a : A) (d : Debouncer)
| Undefined
| Diverges.

Arguments Done {A} a d.
Arguments Undefined {A}.
Arguments Diverges {A}.

Definition M (A : Type) : Type := Debouncer -> outcome A.

Definition ret {A} (a : A) : M A := fun d => Done a d.

Definition bind {A B} (m : M A) (k : A -> M B) : M B :=
  fun d =>
    match m d with
    | Done a d' => k a d'
    | Undefined => Undefined
    | Diverges => Diverges
    end.

Declare Scope dbn_scope.
Notation "'do' x <- m 'in' k" := (bind m (fun x => k))
  (at level 10, x name, m at level 100, k at level 200,
   format "'[v' 'do'  x  <-  m  'in' '/' k ']'") : dbn_scope.
Notation "'run' m 'in' k" := (bind m (fun _ => k))
  (at level 10, m at level 100, k at level 200,
   format "'[v' 'run'  m  'in' '/' k ']'") : dbn_scope.
Local Open Scope dbn_scope.

Definition value {A} (o : outcome A) : option A :=
  match o with Done a _ => Some a | _ => None end.

Definition final {A} (o : outcome A) : option Debouncer :=
  match o with Done _ d => Some d | _ => None end.

(** Field reads and writes. *)

Definition get_index : M Z := fun d => Done (index d) d.
Definition get_debouncedState : M Z := fun d => Done (debouncedState d) d.
Definition get_changed : M Z := fun d => Done (changed d) d.

Definition set_index (v : Z) : M unit :=
  fun d => Done tt (mkDebouncer (state d) v (debouncedState d) (changed d)).
Definition set_debouncedState (v : Z) : M unit :=
  fun d => Done tt (mkDebouncer (state d) (index d) v (changed d)).
Definition set_changed (v : Z) : M unit :=
  fun d => Done tt (mkDebouncer (state d) (index d) (debouncedState d) v).

(** [state[i]] as an rvalue and as an lvalue; an index outside the array is
    undefined behaviour. *)

Definition load_state (i : Z) : M Z :=
  fun d =>
    if i <? 0 then Undefined
    else match state d !! Z.to_nat i with
         | Some v => Done v d
         | None => Undefined
         end.

Definition store_state (i v : Z) : M unit :=
  fun d =>
    if i <? 0 then Undefined
    else match state d !! Z.to_nat i with
         | Some _ =>
             Done tt (mkDebouncer (<[Z.to_nat i := v]> (state d)) (index d)
                                  (debouncedState d) (changed d))
         | None => Undefined
         end.

(** Zero-filled storage of [n] history slots, as a stand-in for the
    indeterminate memory a constructor may be run on. *)
Definition blank (n : nat) : Debouncer := mkDebouncer (repeat 0 n) 0 0 0.

(** ** Macros of common_msp.h on [int] and [unsigned int] operands

    The macros compare and select, so what they yield depends on the types
    of their operands: a comparison is made after the usual arithmetic
    conversions, and a conditional expression has the common type of its
    two branches. An operand is therefore a value together with its type,
    [int] or [unsigned int] of [bits] bits (operands of narrower types
    reach the macros promoted to [int]). Operands are values: the macros
    evaluate an argument more than once. *)

Record cint : Type := mkCint {
  int_signed : bool;       (* true: int, false: unsigned int *)
  int_value : Z
}.

(** The value fits its type. *)
Definition representable (bits : Z) (x : cint) : bool :=
  if int_signed x
  then (- 2 ^ (bits - 1) <=? int_value x) && (int_value x <? 2 ^ (bits - 1))
  else (0 <=? int_value x) && (int_value x <? 2 ^ bits).

(** The common type of two operands: [int] when both are, [unsigned int]
    otherwise. *)
Definition usual_signed (x y : cint) : bool := int_signed x && int_signed y.

(** The value of an operand converted to the common type: conversion to
    [unsigned int] is modulo [2 ^ bits]. *)
Definition converted (bits : Z) (to_signed : bool) (x : cint) : Z :=
  if to_signed then int_value x else int_value x mod 2 ^ bits.

(** [x < y] *)
Definition less (bits : Z) (x y : cint) : bool :=
  converted bits (usual_signed x y) x <? converted bits (usual_signed x y) y.

(** [c ? x : y] *)
Definition conditional (bits : Z) (c : bool) (x y : cint) : cint :=
  mkCint (usual_signed x y)
         (converted bits (usual_signed x y) (if c then x else y)).



(** #define CONSTRAIN(a,lower,upper)
      ((a) < (lower) ? (lower) : ((a) > (upper) ? (upper) : (a))) *)
Definition CONSTRAIN (bits : Z) (a lower upper : cint) : cint :=
  conditional bits (less bits a lower) lower
    (conditional bits (less bits upper a) upper a).

Section Debouncer.

(** The two compile-time macros of button_debounce.h. *)
Variable MAX_BUTTON_CHECKS : Z.
Variable USING_BUTTON_PULLUPS : bool.

(** [for (i = start; i < MAX_BUTTON_CHECKS; i++) body(i)] with [uint8_t i].
    The counter has 256 values and the test depends on nothing else, so a
    loop that has not exited after 256 tests never exits. *)

Definition loop_fuel : nat := 256%nat.

Fixpoint for_checks (fuel : nat) (i : Z) (body : Z -> M unit) : M unit :=
  fun d =>
    match fuel with
    | O => Diverges
    | S fuel' =>
        if i <? MAX_BUTTON_CHECKS then
          match body i d with
          | Done _ d' => for_checks fuel' (wrap8 (i + 1)) body d'
          | Undefined => Undefined
          | Diverges => Diverges
          end
        else Done tt d
    end.

(** Debouncer::Debouncer() *)
Definition Debouncer_ctor : M unit :=
  run set_index 0 in
  run set_debouncedState 255 in
  run set_changed 0 in
  for_checks loop_fuel 0 (fun i => store_state i 255).

(** void Debouncer::ButtonProcess(uint8_t portStatus) *)
Definition ButtonProcess (portStatus : Z) : M unit :=
  do lastDebouncedState <- get_debouncedState in
  let portStatus :=
    if Bool.eqb USING_BUTTON_PULLUPS false
    then wrap8 (Z.lnot portStatus) else portStatus in
  do idx <- get_index in
  run store_state idx portStatus in
  run set_debouncedState 255 in
  run for_checks loop_fuel 0
        (fun i =>
           do acc <- get_debouncedState in
           do s <- load_state i in
           set_debouncedState (wrap8 (Z.land acc s))) in
  do idx <- get_index in
  run set_index (wrap8 (idx + 1)) in
  do idx <- get_index in
  run (if MAX_BUTTON_CHECKS <=? idx then set_index 0 else ret tt) in
  do cur <- get_debouncedState in
  set_changed (wrap8 (Z.lxor cur lastDebouncedState)).

(** bool Debouncer::ButtonPressed(uint8_t GPIOButtonPin) *)
Definition ButtonPressed (GPIOButtonPin : Z) : M bool :=
  do chg <- get_changed in
  do deb <- get_debouncedState in
  if negb (Z.land (Z.land chg (Z.lnot deb)) GPIOButtonPin =? 0)
  then ret true else ret false.

(** bool Debouncer::ButtonReleased(uint8_t GPIOButtonPin) *)
Definition ButtonReleased (GPIOButtonPin : Z) : M bool :=
  do chg <- get_changed in
  do deb <- get_debouncedState in
  if negb (Z.land (Z.land chg deb) GPIOButtonPin =? 0)
  then ret true else ret false.

(** uint8_t Debouncer::ButtonDebouncedStateGet() *)
Definition ButtonDebouncedStateGet : M Z :=
  do deb <- get_debouncedState in
  if Bool.eqb USING_BUTTON_PULLUPS true
  then ret deb else ret (wrap8 (Z.lnot deb)).

(** A run of the sampling loop: one [ButtonProcess] per sample. *)
Fixpoint ButtonProcess_each (samples : list Z) : M unit :=
  match samples with
  | [] => ret tt
  | p :: rest => run ButtonProcess p in ButtonProcess_each rest
  end.

(** Construction followed by a run over [samples]. *)
Definition session (samples : list Z) : M unit :=
  run Debouncer_ctor in ButtonProcess_each samples.

(** ** Vocabulary of the properties *)

(** What [ButtonProcess] writes into the history for a sample. *)
Definition stored_sample (portStatus : Z) : Z :=
  if Bool.eqb USING_BUTTON_PULLUPS false
  then wrap8 (Z.lnot portStatus) else portStatus.

(** Where [ButtonProcess] leaves the write index. *)
Definition next_index (idx : Z) : Z :=
  if MAX_BUTTON_CHECKS <=? wrap8 (idx + 1) then 0 else wrap8 (idx + 1).

(** The array has its declared size and the write index is inside it. *)
Definition in_bounds (d : Debouncer) : Prop :=
  length (state d) = Z.to_nat MAX_BUTTON_CHECKS /\
  0 <= index d < MAX_BUTTON_CHECKS.

(** Storage of the right size whose contents are indeterminate: what the
    constructor is run on. *)
Definition storage (raw : Debouncer) : Prop :=
  length (state raw) = Z.to_nat MAX_BUTTON_CHECKS.

(** The object the constructor leaves behind. *)
Definition idle : Debouncer :=
  mkDebouncer (repeat 255 (Z.to_nat MAX_BUTTON_CHECKS)) 0 255 0.

(** The mask of pin [b]. *)
Definition pin_mask (b : Z) : Z := Z.shiftl 1 b.

(** The electrical level that means "pressed": low on a pulled-up pin,
    high on a pulled-down pin. *)
Definition raw_pressed (level : Z) (b : Z) : bool :=
  if USING_BUTTON_PULLUPS then negb (Z.testbit level b) else Z.testbit level b.

(** Pin [b] is pressed according to the mask that
    [ButtonDebouncedStateGet] hands to the caller. *)
Definition reads_pressed (d : Debouncer) (b : Z) : bool :=
  match value (ButtonDebouncedStateGet d) with
  | Some level => raw_pressed level b
  | None => false
  end.

(** Reading one pin of the debounced state, as a computation. *)
Definition read_pin (b : Z) : M bool := fun d => Done (reads_pressed d b) d.

(** The answer of accessor [q] after construction and a run over
    [samples]. *)
Definition after_session {A} (samples : list Z) (q : M A) (raw : Debouncer)
  : option A :=
  value (bind (session samples) (fun _ => q) raw).

(** The window in order of age, oldest sample first. *)
Definition aged (d : Debouncer) : list Z :=
  drop (Z.to_nat (index d)) (state d) ++ take (Z.to_nat (index d)) (state d).

(** The last [n] elements of a list. *)
Definition lastn {A} (n : nat) (l : list A) : list A :=
  drop (length l - n) l.

(** *** The steps of [ButtonProcess] in the words of the specification *)

(** Bitwise AND of all history entries, over 8 bits. *)
Definition and_all (history : list Z) : Z := fold_right Z.land 255 history.

(** Complement of an 8-bit value. *)
Definition complement8 (v : Z) : Z := Z.lxor v 255.

(** The external contract in the words of the specification: in a
    returned mask a 1 bit means pressed. *)
Definition contract_pressed (mask b : Z) : bool := Z.testbit mask b.

Definition spec_ButtonProcess (portStatus : Z) (d : Debouncer) : Debouncer :=
  let normalized :=
    if USING_BUTTON_PULLUPS then portStatus else complement8 portStatus in
  let history := <[Z.to_nat (index d) := normalized]> (state d) in
  let settled := and_all history in
  mkDebouncer history
              ((index d + 1) mod MAX_BUTTON_CHECKS)
              settled
              (Z.lxor settled (debouncedState d)).

(** The contents of the window after construction and a run over
    [samples], oldest first: the last [MAX_BUTTON_CHECKS] of the values
    written so far, the constructor's fill included. *)
Definition window (samples : list Z) : list Z :=
  lastn (Z.to_nat MAX_BUTTON_CHECKS)
        (repeat 255 (Z.to_nat MAX_BUTTON_CHECKS) ++ map stored_sample samples).

Definition settled (samples : list Z) : Z := and_all (window samples).

(** Two runs of samples that agree on pin [b]. *)
Definition agree_on (b : Z) (xs ys : list Z) : Prop :=
  map (fun x => Z.testbit x b) xs = map (fun y => Z.testbit y b) ys.

(** A sequence of samples in which pin [b] alternates between the pressed
    and the released level, starting with [first]. *)
Fixpoint alternating (b : Z) (first : bool) (samples : list Z) : bool :=
  match samples with
  | [] => true
  | x :: rest =>
      Bool.eqb (raw_pressed x b) first && alternating b (negb first) rest
  end.

(** Calls of the three accessors, to talk about sequences of them. *)
Inductive query : Type :=
| AskPressed (GPIOButtonPin : Z)
| AskReleased (GPIOButtonPin : Z)
| AskState.

Inductive reply : Type :=
| Flag (r : bool)
| Mask (v : Z).

Definition ask (q : query) : M reply :=
  match q with
  | AskPressed pin => do r <- ButtonPressed pin in ret (Flag r)
  | AskReleased pin => do r <- ButtonReleased pin in ret (Flag r)
  | AskState => do v <- ButtonDebouncedStateGet in ret (Mask v)
  end.

Fixpoint ask_each (qs : list query) : M (list reply) :=
  match qs with
  | [] => ret []
  | q :: rest =>
      do r <- ask q in
      do rs <- ask_each rest in
      ret (r :: rs)
  end.

(** *** Vocabulary of the further properties *)

(** Bitwise OR of a list of masks. *)
Definition or_all (masks : list Z) : Z := fold_right Z.lor 0 masks.

(** Every sample is an 8-bit value. *)
Definition all_uint8 (samples : list Z) : bool :=
  forallb (fun z => (0 <=? z) && (z <? 256)) samples.

(** The polling loop of the examples for one pin mask: each tick feeds a
    sample to [ButtonProcess] and then asks [ButtonPressed] and
    [ButtonReleased]; the answers of all ticks are collected. *)
Fixpoint poll (GPIOButtonPin : Z) (samples : list Z) : M (list (bool * bool)) :=
  match samples with
  | [] => ret []
  | p :: rest =>
      run ButtonProcess p in
      do pressed <- ButtonPressed GPIOButtonPin in
      do released <- ButtonReleased GPIOButtonPin in
      do later <- poll GPIOButtonPin rest in
      ret ((pressed, released) :: later)
  end.

(** How many entries of a list of answers are true. *)
Fixpoint tally (answers : list bool) : nat :=
  match answers with
  | [] => 0%nat
  | r :: rest => ((if r then 1 else 0) + tally rest)%nat
  end.

(** ** Basic facts *)

Lemma wrap8_small z : 0 <= z < 256 -> wrap8 z = z.
Proof. intros H. unfold wrap8. apply Z.mod_small. lia. Qed.

Lemma wrap8_land_255 z : wrap8 z = Z.land z 255.
Proof. unfold wrap8. change 255 with (Z.ones 8). now rewrite Z.land_ones by lia. Qed.

Lemma testbit_255 b : 0 <= b -> Z.testbit 255 b = (b <? 8).
Proof.
  intros Hb. change 255 with (Z.ones 8).
  rewrite Z.testbit_ones by lia.
  destruct (Z.leb_spec 0 b), (Z.ltb_spec b 8); simpl; lia.
Qed.

Lemma testbit_wrap8 z b : 0 <= b -> Z.testbit (wrap8 z) b = Z.testbit z b && (b <? 8).
Proof.
  intros Hb. rewrite wrap8_land_255, Z.land_spec, testbit_255 by lia. reflexivity.
Qed.

Lemma wrap8_range z : 0 <= wrap8 z < 256.
Proof. unfold wrap8. apply Z.mod_pos_bound. lia. Qed.

Lemma wrap8_lnot p : 0 <= p < 256 -> wrap8 (Z.lnot p) = complement8 p.
Proof.
  intros Hp. apply Z.bits_inj'. intros b Hb.
  unfold complement8.
  rewrite testbit_wrap8, Z.lnot_spec, Z.lxor_spec, testbit_255 by lia.
  destruct (Z.ltb_spec b 8) as [Hlt | Hge].
  - now rewrite andb_true_r, xorb_true_r.
  - rewrite andb_false_r, xorb_false_r. symmetry.
    apply Z.bits_above_log2; [lia |].
    destruct (Z.eq_dec p 0) as [-> | Hne]; [simpl; lia |].
    assert (Z.log2 p < 8) by (apply Z.log2_lt_pow2; lia). lia.
Qed.

Lemma and_all_testbit l b :
  0 <= b ->
  Z.testbit (and_all l) b = forallb (fun s => Z.testbit s b) l && (b <? 8).
Proof.
  intros Hb. induction l as [| s l IH]; simpl.
  - now apply testbit_255.
  - rewrite Z.land_spec, IH. now rewrite andb_assoc.
Qed.

Lemma and_all_range l : 0 <= and_all l < 256.
Proof.
  assert (H : and_all l = wrap8 (and_all l)).
  { apply Z.bits_inj'. intros b Hb.
    rewrite testbit_wrap8, and_all_testbit by lia.
    now rewrite <- andb_assoc, andb_diag. }
  rewrite H. apply wrap8_range.
Qed.

Lemma and_loop_fold l a :
  0 <= a < 256 ->
  fold_left (fun acc s => wrap8 (Z.land acc s)) l a = Z.land a (and_all l).
Proof.
  revert a. induction l as [| s l IH]; intros a Ha; simpl.
  - now rewrite <- wrap8_land_255, wrap8_small.
  - rewrite IH by apply wrap8_range. rewrite wrap8_land_255.
    rewrite <- (wrap8_small a Ha) at 2. rewrite wrap8_land_255.
    apply Z.bits_inj'. intros b Hb. rewrite !Z.land_spec.
    destruct (Z.testbit a b), (Z.testbit s b), (Z.testbit 255 b),
      (Z.testbit (and_all l) b); reflexivity.
Qed.

Lemma and_loop_from_255 l :
  fold_left (fun acc s => wrap8 (Z.land acc s)) l 255 = and_all l.
Proof.
  rewrite and_loop_fold by lia.
  rewrite Z.land_comm, <- wrap8_land_255. apply wrap8_small, and_all_range.
Qed.

(** ** The two loops *)

Lemma init_loop_run (k : nat) : forall fuel i d,
  MAX_BUTTON_CHECKS <= 255 ->
  0 <= i ->
  MAX_BUTTON_CHECKS - i = Z.of_nat k ->
  length (state d) = Z.to_nat MAX_BUTTON_CHECKS ->
  (k < fuel)%nat ->
  for_checks fuel i (fun j => store_state j 255) d =
  Done tt (mkDebouncer (take (Z.to_nat i) (state d) ++ repeat 255 k)
                       (index d) (debouncedState d) (changed d)).
Proof.
  induction k as [| k IH]; intros fuel i d Hmax Hi Hk Hlen Hfuel;
    (destruct fuel as [| fuel]; [lia |]); simpl.
  - destruct (Z.ltb_spec i MAX_BUTTON_CHECKS); [lia |].
    rewrite app_nil_r, take_ge by lia. now destruct d.
  - destruct (Z.ltb_spec i MAX_BUTTON_CHECKS); [| lia].
    unfold store_state. destruct (Z.ltb_spec i 0); [lia |].
    destruct (lookup_lt_is_Some_2 (state d) (Z.to_nat i)) as [v Hv]; [lia |].
    rewrite Hv. rewrite wrap8_small by lia.
    rewrite IH; simpl; rewrite ?length_insert; try lia.
    f_equal. f_equal.
    replace (Z.to_nat (i + 1)) with (S (Z.to_nat i)) by lia.
    rewrite (take_S_r _ _ 255) by (apply list_lookup_insert_eq; lia).
    rewrite take_insert_ge by lia.
    now rewrite <- app_assoc.
Qed.

Lemma and_loop_run (k : nat) : forall fuel i d,
  MAX_BUTTON_CHECKS <= 255 ->
  0 <= i ->
  MAX_BUTTON_CHECKS - i = Z.of_nat k ->
  length (state d) = Z.to_nat MAX_BUTTON_CHECKS ->
  (k < fuel)%nat ->
  for_checks fuel i
    (fun j => do acc <- get_debouncedState in
              do s <- load_state j in
              set_debouncedState (wrap8 (Z.land acc s))) d =
  Done tt (mkDebouncer (state d) (index d)
             (fold_left (fun acc s => wrap8 (Z.land acc s))
                        (drop (Z.to_nat i) (state d)) (debouncedState d))
             (changed d)).
Proof.
  induction k as [| k IH]; intros fuel i d Hmax Hi Hk Hlen Hfuel;
    (destruct fuel as [| fuel]; [lia |]); simpl.
  - destruct (Z.ltb_spec i MAX_BUTTON_CHECKS); [lia |].
    rewrite drop_ge by lia. now destruct d.
  - destruct (Z.ltb_spec i MAX_BUTTON_CHECKS); [| lia].
    unfold bind, get_debouncedState, load_state, set_debouncedState.
    destruct (Z.ltb_spec i 0); [lia |].
    destruct (lookup_lt_is_Some_2 (state d) (Z.to_nat i)) as [v Hv]; [lia |].
    rewrite Hv. rewrite wrap8_small by lia.
    rewrite IH; simpl; try lia.
    replace (Z.to_nat (i + 1)) with (S (Z.to_nat i)) by lia.
    now rewrite (drop_S _ _ _ Hv).
Qed.

(** ** Construction and one call of [ButtonProcess] *)

Lemma Debouncer_ctor_done raw :
  0 < MAX_BUTTON_CHECKS <= 255 ->
  storage raw ->
  Debouncer_ctor raw = Done tt idle.
Proof.
  intros Hmax Hraw. unfold Debouncer_ctor, bind, set_index,
    set_debouncedState, set_changed.
  rewrite (init_loop_run (Z.to_nat MAX_BUTTON_CHECKS)); simpl;
    try assumption; try lia.
  - reflexivity.
  - unfold loop_fuel. lia.
Qed.

Lemma next_index_mod idx :
  0 < MAX_BUTTON_CHECKS <= 255 ->
  0 <= idx < MAX_BUTTON_CHECKS ->
  next_index idx = (idx + 1) mod MAX_BUTTON_CHECKS.
Proof.
  intros Hmax Hidx. unfold next_index. rewrite wrap8_small by lia.
  destruct (Z.leb_spec MAX_BUTTON_CHECKS (idx + 1)).
  - replace (idx + 1) with MAX_BUTTON_CHECKS by lia.
    now rewrite Z.mod_same by lia.
  - now rewrite Z.mod_small by lia.
Qed.

Lemma ButtonProcess_done portStatus d :
  0 < MAX_BUTTON_CHECKS <= 255 ->
  in_bounds d ->
  ButtonProcess portStatus d =
  Done tt
    (let history := <[Z.to_nat (index d) := stored_sample portStatus]> (state d) in
     mkDebouncer history (next_index (index d)) (and_all history)
       (wrap8 (Z.lxor (and_all history) (debouncedState d)))).
Proof.
  intros Hmax [Hlen Hidx].
  unfold ButtonProcess, bind at 1 2 3 4, get_debouncedState at 1, get_index at 1,
    store_state, set_debouncedState at 1.
  destruct (Z.ltb_spec (index d) 0); [lia |].
  destruct (lookup_lt_is_Some_2 (state d) (Z.to_nat (index d))) as [v Hv]; [lia |].
  rewrite Hv. cbv beta iota. unfold bind at 1.
  rewrite (and_loop_run (Z.to_nat MAX_BUTTON_CHECKS)); simpl;
    rewrite ?length_insert; try lia; [| unfold loop_fuel; lia].
  rewrite and_loop_from_255.
  unfold bind, get_index, set_index, get_debouncedState, set_changed, ret,
    next_index, stored_sample; simpl.
  destruct (MAX_BUTTON_CHECKS <=? wrap8 (index d + 1)); reflexivity.
Qed.

Lemma ButtonProcess_in_bounds portStatus d d' :
  0 < MAX_BUTTON_CHECKS <= 255 ->
  in_bounds d ->
  ButtonProcess portStatus d = Done tt d' ->
  in_bounds d'.
Proof.
  intros Hmax Hd Hrun. rewrite ButtonProcess_done in Hrun by assumption.
  injection Hrun as <-. destruct Hd as [Hlen Hidx].
  split; simpl.
  - now rewrite length_insert.
  - rewrite next_index_mod by assumption. apply Z.mod_pos_bound. lia.
Qed.

(** ** The ring buffer as a sliding window *)

Lemma and_all_app l1 l2 : and_all (l1 ++ l2) = Z.land (and_all l1) (and_all l2).
Proof.
  apply Z.bits_inj'. intros b Hb.
  rewrite Z.land_spec, !and_all_testbit, forallb_app by lia.
  destruct (forallb _ l1), (forallb _ l2), (b <? 8); reflexivity.
Qed.

Lemma and_all_aged d : and_all (aged d) = and_all (state d).
Proof.
  unfold aged. rewrite and_all_app, Z.land_comm, <- and_all_app.
  now rewrite take_drop.
Qed.

Lemma and_all_repeat_255 n : and_all (repeat 255 n) = 255.
Proof. induction n as [| n IH]; simpl; [reflexivity | now rewrite IH]. Qed.

Lemma aged_step portStatus d :
  0 < MAX_BUTTON_CHECKS <= 255 ->
  in_bounds d ->
  aged (mkDebouncer (<[Z.to_nat (index d) := portStatus]> (state d))
                    (next_index (index d)) 0 0) =
  tl (aged d) ++ [portStatus].
Proof.
  intros Hmax [Hlen Hidx]. unfold aged; simpl.
  destruct (lookup_lt_is_Some_2 (state d) (Z.to_nat (index d))) as [v Hv]; [lia |].
  rewrite (drop_S _ _ _ Hv); simpl.
  unfold next_index. rewrite wrap8_small by lia.
  destruct (Z.leb_spec MAX_BUTTON_CHECKS (index d + 1)).
  - change (Z.to_nat 0) with 0%nat. rewrite drop_0, take_0, app_nil_r.
    rewrite (drop_ge _ (S _)) by lia. simpl.
    rewrite insert_take_drop by lia.
    now rewrite (drop_ge _ (S _)) by lia.
  - replace (Z.to_nat (index d + 1)) with (S (Z.to_nat (index d))) by lia.
    rewrite drop_insert_lt by lia.
    rewrite (take_S_r _ _ portStatus) by (apply list_lookup_insert_eq; lia).
    rewrite take_insert_ge by lia.
    now rewrite <- app_assoc.
Qed.

Lemma lastn_snoc {A} (n : nat) (l : list A) (x : A) :
  (0 < n <= length l)%nat ->
  tl (lastn n l) ++ [x] = lastn n (l ++ [x]).
Proof.
  intros Hn. unfold lastn. rewrite length_app; simpl.
  replace (length l + 1 - n)%nat with (S (length l - n)) by lia.
  rewrite drop_app_le by lia.
  f_equal. generalize (length l - n)%nat as k. clear Hn.
  induction l as [| a l IH]; intros [| k]; simpl; try reflexivity.
  apply IH.
Qed.

Lemma lastn_app_le {A} (n : nat) (l1 l2 : list A) :
  (length l2 <= n)%nat ->
  lastn n (l1 ++ l2) = lastn (n - length l2) l1 ++ l2.
Proof.
  intros Hn. unfold lastn. rewrite length_app.
  destruct (Nat.le_gt_cases (length l1 + length l2) n) as [Hle | Hgt].
  - replace (length l1 + length l2 - n)%nat with 0%nat by lia.
    replace (length l1 - (n - length l2))%nat with 0%nat by lia.
    reflexivity.
  - replace (length l1 + length l2 - n)%nat
      with (length l1 - (n - length l2))%nat by lia.
    now rewrite drop_app_le by lia.
Qed.

Lemma lastn_app_full {A} (n : nat) (l1 l2 : list A) :
  length l2 = n -> lastn n (l1 ++ l2) = l2.
Proof.
  intros Hn. rewrite lastn_app_le by lia.
  unfold lastn. rewrite Hn, Nat.sub_diag, Nat.sub_0_r, drop_all. reflexivity.
Qed.

Lemma window_snoc samples p :
  0 < MAX_BUTTON_CHECKS ->
  window (samples ++ [p]) = tl (window samples) ++ [stored_sample p].
Proof.
  intros Hmax. unfold window. rewrite map_app, app_assoc. simpl.
  rewrite lastn_snoc; [reflexivity |].
  rewrite length_app, repeat_length. lia.
Qed.

Lemma window_nil : window [] = repeat 255 (Z.to_nat MAX_BUTTON_CHECKS).
Proof.
  unfold window. cbn [map]. rewrite app_nil_r.
  apply (lastn_app_full _ []), repeat_length.
Qed.

(** ** Runs *)

Lemma ButtonProcess_each_app xs ys d :
  ButtonProcess_each (xs ++ ys) d =
  bind (ButtonProcess_each xs) (fun _ => ButtonProcess_each ys) d.
Proof.
  revert d. induction xs as [| x xs IH]; intros d; simpl.
  - reflexivity.
  - unfold bind. destruct (ButtonProcess x d) as [[] d' | |]; try reflexivity.
    rewrite IH. reflexivity.
Qed.

Lemma session_snoc samples p raw :
  session (samples ++ [p]) raw =
  bind (session samples) (fun _ => ButtonProcess p) raw.
Proof.
  unfold session, bind.
  destruct (Debouncer_ctor raw) as [[] d | |]; try reflexivity.
  rewrite ButtonProcess_each_app. unfold bind.
  destruct (ButtonProcess_each samples d) as [[] d' | |]; try reflexivity.
  simpl. unfold bind, ret. destruct (ButtonProcess p d') as [[] d'' | |]; reflexivity.
Qed.

(** The state reached by a session: the call always returns, the index
    stays inside the array, the ring buffer holds [window samples] and the
    settled mask is its AND. *)
Lemma session_state samples : forall raw,
  0 < MAX_BUTTON_CHECKS <= 255 ->
  storage raw ->
  exists d,
    session samples raw = Done tt d /\
    in_bounds d /\
    aged d = window samples /\
    debouncedState d = settled samples.
Proof.
  induction samples as [| p samples IH] using rev_ind; intros raw Hmax Hraw.
  - exists idle. unfold session, bind. rewrite Debouncer_ctor_done by assumption.
    simpl. split; [reflexivity |]. split; [| split].
    + split; simpl; [apply repeat_length | lia].
    + rewrite window_nil. unfold aged, idle; cbn [index state].
      change (Z.to_nat 0) with 0%nat. now rewrite drop_0, take_0, app_nil_r.
    + unfold settled. rewrite window_nil. now rewrite and_all_repeat_255.
  - destruct (IH raw Hmax Hraw) as (d & Hrun & Hd & Hwin & Hdeb).
    rewrite session_snoc. unfold bind. rewrite Hrun.
    rewrite ButtonProcess_done by assumption.
    eexists. split; [reflexivity |].
    assert (Haged : aged (mkDebouncer
                (<[Z.to_nat (index d) := stored_sample p]> (state d))
                (next_index (index d)) 0 0) = window (samples ++ [p])).
    { rewrite aged_step by assumption. rewrite window_snoc by lia.
      now rewrite Hwin. }
    split; [| split].
    + eapply ButtonProcess_in_bounds; [exact Hmax | exact Hd |].
      now rewrite ButtonProcess_done by assumption.
    + exact Haged.
    + cbv zeta. simpl. unfold settled. rewrite <- Haged.
      now rewrite and_all_aged.
Qed.

Lemma lxor_range a b : 0 <= a < 256 -> 0 <= b < 256 -> 0 <= Z.lxor a b < 256.
Proof.
  intros Ha Hb. split; [apply Z.lxor_nonneg; lia |].
  destruct (Z.eq_dec (Z.lxor a b) 0) as [-> | Hne]; [lia |].
  apply Z.log2_lt_cancel. change (Z.log2 256) with 8.
  eapply Z.le_lt_trans; [apply Z.log2_lxor; lia |].
  apply Z.max_lub_lt.
  - destruct (Z.eq_dec a 0) as [-> | ?]; [simpl; lia |].
    apply Z.log2_lt_pow2; lia.
  - destruct (Z.eq_dec b 0) as [-> | ?]; [simpl; lia |].
    apply Z.log2_lt_pow2; lia.
Qed.

Lemma session_changed samples p raw :
  0 < MAX_BUTTON_CHECKS <= 255 ->
  storage raw ->
  exists d,
    session (samples ++ [p]) raw = Done tt d /\
    debouncedState d = settled (samples ++ [p]) /\
    changed d = Z.lxor (settled (samples ++ [p])) (settled samples).
Proof.
  intros Hmax Hraw.
  destruct (session_state (samples ++ [p]) raw Hmax Hraw) as (d' & Hrun' & _ & _ & Hdeb').
  destruct (session_state samples raw Hmax Hraw) as (d & Hrun & Hd & _ & Hdeb).
  exists d'. split; [exact Hrun' |]. split; [exact Hdeb' |].
  rewrite session_snoc in Hrun'. unfold bind in Hrun'. rewrite Hrun in Hrun'.
  rewrite ButtonProcess_done in Hrun' by assumption.
  injection Hrun' as <-. simpl in *. rewrite Hdeb', Hdeb.
  apply wrap8_small, lxor_range; apply and_all_range.
Qed.

(** ** The accessors, pin by pin *)

Lemma land_pin_mask x b :
  0 <= b -> (Z.land x (pin_mask b) =? 0) = negb (Z.testbit x b).
Proof.
  intros Hb. unfold pin_mask. rewrite Z.shiftl_1_l.
  destruct (Z.testbit x b) eqn:Hx; simpl.
  - apply Z.eqb_neq. intros H0.
    assert (Hbit : Z.testbit (Z.land x (2 ^ b)) b = true)
      by (rewrite Z.land_spec, Hx, Z.pow2_bits_true by lia; reflexivity).
    rewrite H0, Z.bits_0 in Hbit. discriminate.
  - apply Z.eqb_eq. apply Z.bits_inj'. intros i Hi.
    rewrite Z.land_spec, Z.bits_0, Z.pow2_bits_eqb by lia.
    destruct (Z.eqb_spec b i) as [<- | ?].
    + now rewrite Hx.
    + apply andb_false_r.
Qed.

Lemma ButtonPressed_pin d b :
  0 <= b ->
  ButtonPressed (pin_mask b) d =
  Done (Z.testbit (changed d) b && negb (Z.testbit (debouncedState d) b)) d.
Proof.
  intros Hb. unfold ButtonPressed, bind, get_changed, get_debouncedState, ret.
  rewrite land_pin_mask, Z.land_spec, Z.lnot_spec, negb_involutive by lia.
  now destruct (Z.testbit (changed d) b), (Z.testbit (debouncedState d) b).
Qed.

Lemma ButtonReleased_pin d b :
  0 <= b ->
  ButtonReleased (pin_mask b) d =
  Done (Z.testbit (changed d) b && Z.testbit (debouncedState d) b) d.
Proof.
  intros Hb. unfold ButtonReleased, bind, get_changed, get_debouncedState, ret.
  rewrite land_pin_mask, Z.land_spec, negb_involutive by lia.
  now destruct (Z.testbit (changed d) b), (Z.testbit (debouncedState d) b).
Qed.

Lemma reads_pressed_bit d b :
  0 <= b < 8 ->
  reads_pressed d b = negb (Z.testbit (debouncedState d) b).
Proof.
  intros Hb.
  unfold reads_pressed, ButtonDebouncedStateGet, bind, get_debouncedState,
    ret, raw_pressed.
  destruct USING_BUTTON_PULLUPS; simpl; [reflexivity |].
  rewrite testbit_wrap8, Z.lnot_spec by lia.
  destruct (Z.ltb_spec b 8); [apply andb_true_r | lia].
Qed.

Lemma stored_sample_bit p b :
  0 <= b < 8 ->
  Z.testbit (stored_sample p) b = negb (raw_pressed p b).
Proof.
  intros Hb. unfold stored_sample, raw_pressed.
  destruct USING_BUTTON_PULLUPS; simpl.
  - now rewrite negb_involutive.
  - rewrite testbit_wrap8, Z.lnot_spec by lia.
    destruct (Z.ltb_spec b 8); [apply andb_true_r | lia].
Qed.

(** ** The settled bit of a pin as a function of the samples *)

Lemma settled_bit samples b :
  0 <= b < 8 ->
  Z.testbit (settled samples) b =
  forallb (fun s => Z.testbit s b) (window samples).
Proof.
  intros Hb. unfold settled. rewrite and_all_testbit by lia.
  destruct (Z.ltb_spec b 8); [apply andb_true_r | lia].
Qed.

Lemma settled_nil b : 0 <= b < 8 -> Z.testbit (settled []) b = true.
Proof.
  intros Hb. unfold settled. rewrite window_nil, and_all_repeat_255.
  rewrite testbit_255 by lia. apply Z.ltb_lt. lia.
Qed.

Lemma forallb_drop {A} (f : A -> bool) (n : nat) (l : list A) :
  forallb f l = true -> forallb f (drop n l) = true.
Proof.
  revert n. induction l as [| x l IH]; intros [| n] H; simpl in *; auto.
  apply andb_true_iff in H as [_ H]. now apply IH.
Qed.

Lemma lastn_app_ge {A} (n : nat) (l1 l2 : list A) :
  (n <= length l2)%nat -> lastn n (l1 ++ l2) = lastn n l2.
Proof.
  intros Hn. unfold lastn. rewrite length_app.
  rewrite drop_app_ge by lia. f_equal. lia.
Qed.

(** A pressed sample still in the window keeps the pin's bit low. *)
Lemma settled_recent_press ys a ws b :
  0 < MAX_BUTTON_CHECKS ->
  0 <= b < 8 ->
  raw_pressed a b = true ->
  (length ws < Z.to_nat MAX_BUTTON_CHECKS)%nat ->
  Z.testbit (settled (ys ++ a :: ws)) b = false.
Proof.
  intros Hmax Hb Ha Hws. rewrite settled_bit by assumption. unfold window.
  rewrite map_app. cbn [map].
  rewrite app_assoc, lastn_app_le by (simpl; rewrite length_map; lia).
  rewrite forallb_app. cbn [forallb].
  rewrite stored_sample_bit, Ha by assumption. simpl. apply andb_false_r.
Qed.

(** A window full of released samples sets the pin's bit. *)
Lemma settled_all_released ys ws b :
  0 <= b < 8 ->
  forallb (fun z => negb (raw_pressed z b)) ws = true ->
  (Z.to_nat MAX_BUTTON_CHECKS <= length ws)%nat ->
  Z.testbit (settled (ys ++ ws)) b = true.
Proof.
  intros Hb Hws Hlen. rewrite settled_bit by assumption. unfold window.
  rewrite map_app, app_assoc, lastn_app_ge by (rewrite length_map; lia).
  unfold lastn. apply forallb_drop.
  rewrite forallb_forall in *. intros s Hs.
  apply in_map_iff in Hs as (z & <- & Hz).
  rewrite stored_sample_bit by assumption. now apply Hws.
Qed.

Lemma forallb_of_map {A B} (f : A -> B) (g : B -> bool) (l : list A) :
  forallb g (map f l) = forallb (fun x => g (f x)) l.
Proof. induction l as [| x l IH]; simpl; [reflexivity | now rewrite IH]. Qed.

Lemma settled_bit_from_bits samples b :
  0 <= b < 8 ->
  Z.testbit (settled samples) b =
  forallb (fun t => t)
    (lastn (Z.to_nat MAX_BUTTON_CHECKS)
       (repeat true (Z.to_nat MAX_BUTTON_CHECKS) ++
        map (fun t => if Bool.eqb USING_BUTTON_PULLUPS false then negb t else t)
            (map (fun x => Z.testbit x b) samples))).
Proof.
  intros Hb. rewrite settled_bit by assumption.
  rewrite <- (forallb_of_map (fun s => Z.testbit s b) (fun t => t)).
  f_equal. unfold window, lastn.
  rewrite <- skipn_map, !length_app, !repeat_length, !length_map.
  f_equal. rewrite map_app. f_equal.
  - induction (Z.to_nat MAX_BUTTON_CHECKS) as [| n IH]; simpl; [reflexivity |].
    rewrite IH. f_equal. rewrite testbit_255 by lia. apply Z.ltb_lt. lia.
  - rewrite !map_map. apply map_ext. intros x.
    rewrite stored_sample_bit by assumption. unfold raw_pressed.
    destruct USING_BUTTON_PULLUPS; simpl; [apply negb_involutive | reflexivity].
Qed.

Lemma settled_agree b xs ys :
  0 <= b < 8 ->
  agree_on b xs ys ->
  Z.testbit (settled xs) b = Z.testbit (settled ys) b.
Proof.
  intros Hb Hagree. rewrite !settled_bit_from_bits by assumption.
  unfold agree_on in Hagree. now rewrite Hagree.
Qed.

(** ** Sessions, pin by pin *)

Lemma session_nil raw :
  0 < MAX_BUTTON_CHECKS <= 255 ->
  storage raw ->
  session [] raw = Done tt idle.
Proof.
  intros Hmax Hraw. unfold session, bind.
  now rewrite Debouncer_ctor_done by assumption.
Qed.

Lemma session_pin samples raw b :
  0 < MAX_BUTTON_CHECKS <= 255 ->
  storage raw ->
  0 <= b < 8 ->
  exists d,
    session samples raw = Done tt d /\
    Z.testbit (debouncedState d) b = Z.testbit (settled samples) b /\
    Z.testbit (changed d) b =
      xorb (Z.testbit (settled samples) b)
           (Z.testbit (settled (removelast samples)) b).
Proof.
  intros Hmax Hraw Hb.
  destruct samples as [| p samples _] using rev_ind.
  - exists idle. split; [now apply session_nil |]. simpl.
    rewrite settled_nil, testbit_255, Z.bits_0 by lia.
    split; [| reflexivity]. apply Z.ltb_lt. lia.
  - destruct (session_changed samples p raw Hmax Hraw) as (d & Hrun & Hdeb & Hchg).
    exists d. split; [exact Hrun |].
    rewrite removelast_last, Hdeb, Hchg, Z.lxor_spec. split; reflexivity.
Qed.

Lemma take_snoc {A} (l : list A) (j : nat) :
  (1 <= j <= length l)%nat ->
  exists x, l !! (j - 1)%nat = Some x /\ take j l = take (j - 1) l ++ [x].
Proof.
  intros Hj.
  destruct (lookup_lt_is_Some_2 l (j - 1)%nat) as [x Hx]; [lia |].
  exists x. split; [exact Hx |].
  replace j with (S (j - 1)) at 1 by lia. now apply take_S_r.
Qed.

Lemma forallb_lookup {A} (f : A -> bool) (l : list A) (i : nat) (x : A) :
  forallb f l = true -> l !! i = Some x -> f x = true.
Proof.
  intros Hall Hx. rewrite forallb_forall in Hall. apply Hall.
  apply list_elem_of_In. eapply list_elem_of_lookup_2, Hx.
Qed.

Lemma forallb_take {A} (f : A -> bool) (n : nat) (l : list A) :
  forallb f l = true -> forallb f (take n l) = true.
Proof.
  revert n. induction l as [| x l IH]; intros [| n] H; simpl in *; auto.
  apply andb_true_iff in H as [Hx H]. rewrite Hx. now apply IH.
Qed.

(** After a pressed sample followed by released samples only, the pin's
    bit is set exactly when the released samples fill the window. *)
Lemma settled_after_release ys a ws b :
  0 < MAX_BUTTON_CHECKS ->
  0 <= b < 8 ->
  raw_pressed a b = true ->
  forallb (fun z => negb (raw_pressed z b)) ws = true ->
  Z.testbit (settled (ys ++ a :: ws)) b =
  (Z.to_nat MAX_BUTTON_CHECKS <=? length ws)%nat.
Proof.
  intros Hmax Hb Ha Hws.
  destruct (Nat.leb_spec (Z.to_nat MAX_BUTTON_CHECKS) (length ws)) as [Hle | Hlt].
  - change (ys ++ a :: ws) with (ys ++ [a] ++ ws). rewrite app_assoc.
    now apply settled_all_released.
  - now apply settled_recent_press.
Qed.

Lemma alternating_head b x rest :
  alternating b true (x :: rest) = true -> raw_pressed x b = true.
Proof.
  simpl. intros H. apply andb_true_iff in H as [H _].
  now apply eqb_prop in H.
Qed.

Lemma removelast_map {A B} (f : A -> B) (l : list A) :
  removelast (map f l) = map f (removelast l).
Proof.
  induction l as [| x l IH]; [reflexivity |].
  destruct l as [| y l]; [reflexivity |].
  cbn [map removelast] in *. now rewrite IH.
Qed.

Lemma agree_on_removelast b xs ys :
  agree_on b xs ys -> agree_on b (removelast xs) (removelast ys).
Proof.
  unfold agree_on. intros H. now rewrite <- !removelast_map, H.
Qed.

Lemma agree_on_take b k xs ys :
  agree_on b xs ys -> agree_on b (take k xs) (take k ys).
Proof.
  unfold agree_on. intros H. now rewrite <- !firstn_map, H.
Qed.

(** ** One call of [ButtonProcess] *)

(** C1. On an object whose write index lies inside the history array, one
    call [ButtonProcess(portStatus)] with an 8-bit sample returns, and it
    performs exactly the steps of [spec_ButtonProcess]: the sample is
    complemented when the pull-up flag is false, it is stored at the
    current write index, the index advances modulo the history depth, the
    settled mask becomes the bitwise AND of all history entries and
    [changed] the XOR of the new and the previous settled mask. *)
Theorem ButtonProcess_steps portStatus d :
  0 < MAX_BUTTON_CHECKS <= 255 ->
  in_bounds d ->
  is_uint8 (debouncedState d) ->
  is_uint8 portStatus ->
  ButtonProcess portStatus d = Done tt (spec_ButtonProcess portStatus d).
Proof.
  intros Hmax Hd Hdeb Hp. rewrite ButtonProcess_done by assumption.
  unfold spec_ButtonProcess. cbv zeta.
  assert (Hs : stored_sample portStatus =
               if USING_BUTTON_PULLUPS then portStatus else complement8 portStatus).
  { unfold stored_sample. destruct USING_BUTTON_PULLUPS; simpl; [reflexivity |].
    now apply wrap8_lnot. }
  rewrite Hs. destruct Hd as [Hlen Hidx].
  rewrite next_index_mod by assumption.
  rewrite wrap8_small; [reflexivity |].
  apply lxor_range; [apply and_all_range | exact Hdeb].
Qed.

(** C9. The write index is inside the history array after construction,
    and from any object where it is, [ButtonProcess] returns without an
    array access out of bounds and leaves the index inside the array
    again. *)
Theorem index_stays_in_bounds :
  0 < MAX_BUTTON_CHECKS <= 255 ->
  (forall raw, storage raw ->
     exists d, Debouncer_ctor raw = Done tt d /\ in_bounds d) /\
  (forall d portStatus, in_bounds d ->
     exists d', ButtonProcess portStatus d = Done tt d' /\ in_bounds d').
Proof.
  intros Hmax. split.
  - intros raw Hraw. exists idle. split; [now apply Debouncer_ctor_done |].
    split; simpl; [apply repeat_length | lia].
  - intros d p Hd. eexists. split; [now apply ButtonProcess_done |].
    eapply ButtonProcess_in_bounds; [exact Hmax | exact Hd |].
    now apply ButtonProcess_done.
Qed.

(** ** The accessors *)

(** C8. The three accessors return the object exactly as they found it,
    so in any sequence of accessor calls with no [ButtonProcess] in
    between the object stays the same and every call gives the answer it
    gives when it is the only call made. *)
Theorem accessors_read_only d :
  (forall pin, final (ButtonPressed pin d) = Some d) /\
  (forall pin, final (ButtonReleased pin d) = Some d) /\
  final (ButtonDebouncedStateGet d) = Some d /\
  (forall qs, exists rs,
     ask_each qs d = Done rs d /\
     Forall2 (fun q r => value (ask q d) = Some r) qs rs).
Proof.
  assert (Hp : forall pin, exists r, ButtonPressed pin d = Done r d).
  { intros pin. unfold ButtonPressed, bind, get_changed, get_debouncedState, ret.
    destruct (negb _); eauto. }
  assert (Hr : forall pin, exists r, ButtonReleased pin d = Done r d).
  { intros pin. unfold ButtonReleased, bind, get_changed, get_debouncedState, ret.
    destruct (negb _); eauto. }
  assert (Hs : exists v, ButtonDebouncedStateGet d = Done v d).
  { unfold ButtonDebouncedStateGet, bind, get_debouncedState, ret.
    destruct (Bool.eqb _ _); eauto. }
  assert (Hq : forall q, exists r, ask q d = Done r d).
  { intros [pin | pin |]; unfold ask, bind, ret.
    - destruct (Hp pin) as [r ->]. eauto.
    - destruct (Hr pin) as [r ->]. eauto.
    - destruct Hs as [v ->]. eauto. }
  repeat split.
  - intros pin. destruct (Hp pin) as [r ->]. reflexivity.
  - intros pin. destruct (Hr pin) as [r ->]. reflexivity.
  - destruct Hs as [v ->]. reflexivity.
  - induction qs as [| q qs IH].
    + exists []. split; [reflexivity | constructor].
    + destruct IH as (rs & Hrun & Hall). destruct (Hq q) as [r Hask].
      exists (r :: rs). split.
      * cbn [ask_each]. unfold bind, ret. now rewrite Hask, Hrun.
      * constructor; [now rewrite Hask | exact Hall].
Qed.

(** C10. For a single pin, [ButtonPressed] and [ButtonReleased] never both
    return true on the same object: the masks [changed & ~debouncedState]
    and [changed & debouncedState] they test have no bit in common. *)
Theorem pressed_released_exclusive d b :
  0 <= b ->
  Z.land (Z.land (changed d) (Z.lnot (debouncedState d)))
         (Z.land (changed d) (debouncedState d)) = 0 /\
  ~ (value (ButtonPressed (pin_mask b) d) = Some true /\
     value (ButtonReleased (pin_mask b) d) = Some true).
Proof.
  intros Hb. split.
  - apply Z.bits_inj'. intros i Hi.
    rewrite !Z.land_spec, Z.lnot_spec, Z.bits_0 by lia.
    now destruct (Z.testbit (changed d) i), (Z.testbit (debouncedState d) i).
  - rewrite ButtonPressed_pin, ButtonReleased_pin by assumption. simpl.
    intros [H1 H2].
    destruct (Z.testbit (changed d) b), (Z.testbit (debouncedState d) b);
      simpl in *; discriminate.
Qed.

(** C5 (as amended). [ButtonDebouncedStateGet] hands out the settled mask
    at the electrical level of the port: with pull-ups in use it returns
    [debouncedState] unchanged, so a returned 0 bit means pressed; only
    with pull-downs in use it returns the complement, so that a returned
    1 bit means pressed. *)
Theorem StateGet_polarity d :
  is_uint8 (debouncedState d) ->
  value (ButtonDebouncedStateGet d) =
    Some (if USING_BUTTON_PULLUPS then debouncedState d
          else complement8 (debouncedState d)) /\
  (forall b, 0 <= b < 8 ->
     reads_pressed d b = negb (Z.testbit (debouncedState d) b)).
Proof.
  intros Hdeb. split.
  - unfold ButtonDebouncedStateGet, bind, get_debouncedState, ret.
    destruct USING_BUTTON_PULLUPS; simpl; [reflexivity |].
    now rewrite wrap8_lnot.
  - intros b Hb. now apply reads_pressed_bit.
Qed.

(** C6 (as amended). Right after construction [ButtonDebouncedStateGet]
    returns the idle mask at the electrical level of the port, all ones
    with pull-ups and all zeros with pull-downs, in which every pin is at
    its released level, and [ButtonPressed] and [ButtonReleased] return
    false for every mask. *)
Theorem idle_after_construction raw :
  0 < MAX_BUTTON_CHECKS <= 255 ->
  storage raw ->
  exists d,
    Debouncer_ctor raw = Done tt d /\
    value (ButtonDebouncedStateGet d) =
      Some (if USING_BUTTON_PULLUPS then 255 else 0) /\
    (forall b, 0 <= b < 8 -> reads_pressed d b = false) /\
    (forall pin, value (ButtonPressed pin d) = Some false) /\
    (forall pin, value (ButtonReleased pin d) = Some false).
Proof.
  intros Hmax Hraw. exists idle. split; [now apply Debouncer_ctor_done |].
  split; [| split; [| split]].
  - unfold ButtonDebouncedStateGet, bind, get_debouncedState, ret.
    now destruct USING_BUTTON_PULLUPS.
  - intros b Hb. rewrite reads_pressed_bit by assumption. simpl.
    rewrite testbit_255 by lia.
    destruct (Z.ltb_spec b 8); [reflexivity | lia].
  - intros pin. reflexivity.
  - intros pin. reflexivity.
Qed.

(** ** Pressing, releasing and bouncing *)

(** C2 (as amended). From the freshly constructed object, while a pin is
    sampled at its pressed level on consecutive [ButtonProcess] calls
    (N of them or any other number), the debounced state of the pin reads
    pressed from the first call on, and [ButtonPressed] for the pin
    returns true on that first call only, false on each later call. *)
Theorem press_confirmed_on_first_call raw samples b (j : nat) :
  0 < MAX_BUTTON_CHECKS <= 255 ->
  storage raw ->
  0 <= b < 8 ->
  forallb (fun x => raw_pressed x b) samples = true ->
  (1 <= j <= length samples)%nat ->
  exists d,
    session (take j samples) raw = Done tt d /\
    reads_pressed d b = true /\
    value (ButtonPressed (pin_mask b) d) = Some (j =? 1)%nat.
Proof.
  intros Hmax Hraw Hb Hall Hj.
  destruct (take_snoc samples j Hj) as (x & Hx & Htake).
  assert (Hnew : Z.testbit (settled (take j samples)) b = false).
  { rewrite Htake. apply settled_recent_press; try assumption; try lia.
    - now apply (forallb_lookup (fun y => raw_pressed y b) samples (j - 1)).
    - simpl. lia. }
  assert (Hold : Z.testbit (settled (take (j - 1) samples)) b = (j =? 1)%nat).
  { destruct (Nat.eqb_spec j 1) as [-> | Hne].
    - simpl. now apply settled_nil.
    - destruct (take_snoc samples (j - 1)) as (x' & Hx' & Htake'); [lia |].
      rewrite Htake'. apply settled_recent_press; try assumption; try lia.
      + now apply (forallb_lookup (fun y => raw_pressed y b) samples (j - 1 - 1)).
      + simpl. lia. }
  destruct (session_pin (take j samples) raw b Hmax Hraw Hb) as (d & Hrun & Hdeb & Hchg).
  exists d. split; [exact Hrun |].
  rewrite reads_pressed_bit, ButtonPressed_pin by lia.
  rewrite Hchg, Hdeb, Hnew. rewrite Htake at 1. rewrite removelast_last, Hold.
  split; [reflexivity |]. simpl. now destruct (j =? 1)%nat.
Qed.

(** C3 (as amended). After a call that sampled a pin at its pressed
    level, a run of calls that sample it at its released level leaves the
    debounced state of the pin pressed until the N-th of them: the state
    reads not pressed from the N-th consecutive released sample on, and
    [ButtonReleased] for the pin returns true on exactly that N-th call
    (the first one when N is 1). *)
Theorem release_confirmed_on_Nth_call raw before a after b (j : nat) :
  0 < MAX_BUTTON_CHECKS <= 255 ->
  storage raw ->
  0 <= b < 8 ->
  raw_pressed a b = true ->
  forallb (fun z => negb (raw_pressed z b)) after = true ->
  (1 <= j <= length after)%nat ->
  exists d,
    session (before ++ a :: take j after) raw = Done tt d /\
    reads_pressed d b = (j <? Z.to_nat MAX_BUTTON_CHECKS)%nat /\
    value (ButtonReleased (pin_mask b) d) =
      Some (j =? Z.to_nat MAX_BUTTON_CHECKS)%nat.
Proof.
  intros Hmax Hraw Hb Ha Hall Hj.
  destruct (take_snoc after j Hj) as (z & Hz & Htake).
  assert (Hnew : Z.testbit (settled (before ++ a :: take j after)) b =
                 (Z.to_nat MAX_BUTTON_CHECKS <=? j)%nat).
  { rewrite settled_after_release; try assumption; try lia.
    - now rewrite length_take_le by lia.
    - now apply forallb_take. }
  assert (Hold : Z.testbit (settled (before ++ a :: take (j - 1) after)) b =
                 (Z.to_nat MAX_BUTTON_CHECKS <=? j - 1)%nat).
  { rewrite settled_after_release; try assumption; try lia.
    - now rewrite length_take_le by lia.
    - now apply forallb_take. }
  destruct (session_pin (before ++ a :: take j after) raw b Hmax Hraw Hb)
    as (d & Hrun & Hdeb & Hchg).
  exists d. split; [exact Hrun |].
  rewrite reads_pressed_bit, ButtonReleased_pin by lia.
  rewrite Hchg, Hdeb, Hnew. rewrite Htake at 1.
  change (before ++ a :: take (j - 1) after ++ [z])
    with (before ++ (a :: take (j - 1) after) ++ [z]).
  rewrite app_assoc, removelast_last, Hold. simpl.
  destruct (Nat.leb_spec (Z.to_nat MAX_BUTTON_CHECKS) j),
    (Nat.leb_spec (Z.to_nat MAX_BUTTON_CHECKS) (j - 1)),
    (Nat.ltb_spec j (Z.to_nat MAX_BUTTON_CHECKS)),
    (Nat.eqb_spec j (Z.to_nat MAX_BUTTON_CHECKS)); simpl; split;
    try reflexivity; lia.
Qed.

(** C4 (as amended). From the freshly constructed object, a sequence of
    fewer than N samples in which a pin alternates pressed, released,
    pressed, ... flips the debounced state of the pin exactly once, to
    pressed on the first call; on every later call of the sequence the
    state still reads pressed and the pin's bit of [changed] is 0. *)
Theorem bounce_flips_on_first_call_only raw samples b (j : nat) :
  0 < MAX_BUTTON_CHECKS <= 255 ->
  storage raw ->
  0 <= b < 8 ->
  alternating b true samples = true ->
  Z.of_nat (length samples) < MAX_BUTTON_CHECKS ->
  (1 <= j <= length samples)%nat ->
  exists d,
    session (take j samples) raw = Done tt d /\
    reads_pressed d b = true /\
    Z.testbit (changed d) b = (j =? 1)%nat.
Proof.
  intros Hmax Hraw Hb Halt Hlen Hj.
  destruct samples as [| x0 rest]; [simpl in Hj; lia |].
  assert (Hx0 : raw_pressed x0 b = true) by (eapply alternating_head; eauto).
  simpl in Hj, Hlen.
  assert (Hbit : forall k, (1 <= k <= j)%nat ->
            Z.testbit (settled (take k (x0 :: rest))) b = false).
  { intros k Hk. replace k with (S (k - 1)) by lia. cbn [take firstn].
    apply (settled_recent_press [] x0); try assumption; try lia.
    rewrite length_take. lia. }
  destruct (take_snoc (x0 :: rest) j) as (x & Hx & Htake); [simpl; lia |].
  destruct (session_pin (take j (x0 :: rest)) raw b Hmax Hraw Hb)
    as (d & Hrun & Hdeb & Hchg).
  exists d. split; [exact Hrun |].
  rewrite reads_pressed_bit by lia.
  rewrite Hchg, Hdeb, Hbit by lia. split; [reflexivity |].
  rewrite Htake, removelast_last.
  destruct (Nat.eqb_spec j 1) as [-> | Hne].
  - simpl. now rewrite settled_nil.
  - now rewrite Hbit by lia.
Qed.

(** C7. Two sample sequences that agree on pin B, whatever they do on the
    other seven pins, yield after every step the same debounced state for
    pin B and the same [ButtonPressed] and [ButtonReleased] answers for
    pin B. *)
Theorem pins_independent raw1 raw2 xs ys b (k : nat) :
  0 < MAX_BUTTON_CHECKS <= 255 ->
  storage raw1 ->
  storage raw2 ->
  0 <= b < 8 ->
  agree_on b xs ys ->
  exists d1 d2,
    session (take k xs) raw1 = Done tt d1 /\
    session (take k ys) raw2 = Done tt d2 /\
    Z.testbit (debouncedState d1) b = Z.testbit (debouncedState d2) b /\
    reads_pressed d1 b = reads_pressed d2 b /\
    value (ButtonPressed (pin_mask b) d1) = value (ButtonPressed (pin_mask b) d2) /\
    value (ButtonReleased (pin_mask b) d1) = value (ButtonReleased (pin_mask b) d2).
Proof.
  intros Hmax Hraw1 Hraw2 Hb Hagree.
  apply (agree_on_take b k) in Hagree.
  destruct (session_pin (take k xs) raw1 b Hmax Hraw1 Hb) as (d1 & Hrun1 & Hdeb1 & Hchg1).
  destruct (session_pin (take k ys) raw2 b Hmax Hraw2 Hb) as (d2 & Hrun2 & Hdeb2 & Hchg2).
  assert (Hd : Z.testbit (debouncedState d1) b = Z.testbit (debouncedState d2) b).
  { rewrite Hdeb1, Hdeb2. now apply settled_agree. }
  assert (Hc : Z.testbit (changed d1) b = Z.testbit (changed d2) b).
  { rewrite Hchg1, Hchg2.
    rewrite (settled_agree b _ _ Hb Hagree).
    now rewrite (settled_agree b _ _ Hb (agree_on_removelast b _ _ Hagree)). }
  exists d1, d2. split; [exact Hrun1 |]. split; [exact Hrun2 |].
  split; [exact Hd |].
  rewrite !reads_pressed_bit, !ButtonPressed_pin, !ButtonReleased_pin by lia.
  rewrite Hd, Hc. repeat split; reflexivity.
Qed.

(** ** Runs from an arbitrary object *)

Lemma aged_length d :
  in_bounds d -> length (aged d) = Z.to_nat MAX_BUTTON_CHECKS.
Proof.
  intros [Hlen Hidx]. unfold aged.
  rewrite length_app, length_drop, length_take. lia.
Qed.

Lemma ButtonProcess_each_snoc ws w d d1 :
  ButtonProcess_each ws d = Done tt d1 ->
  ButtonProcess_each (ws ++ [w]) d = ButtonProcess w d1.
Proof.
  intros Hrun. rewrite ButtonProcess_each_app. unfold bind. rewrite Hrun.
  simpl. unfold bind, ret. destruct (ButtonProcess w d1) as [[] d2 | |]; reflexivity.
Qed.

(** The ring buffer after a run from any object whose index is in
    bounds: the window slides over the old contents and the new samples. *)
Lemma each_state ws : forall d,
  0 < MAX_BUTTON_CHECKS <= 255 ->
  in_bounds d ->
  exists d',
    ButtonProcess_each ws d = Done tt d' /\
    in_bounds d' /\
    aged d' = lastn (Z.to_nat MAX_BUTTON_CHECKS) (aged d ++ map stored_sample ws) /\
    index d' = (index d + Z.of_nat (length ws)) mod MAX_BUTTON_CHECKS /\
    (ws <> [] -> debouncedState d' = and_all (aged d')).
Proof.
  induction ws as [| w ws IH] using rev_ind; intros d Hmax Hd.
  - exists d. split; [reflexivity |]. split; [exact Hd |].
    split; [| split].
    + cbn [map]. rewrite app_nil_r. symmetry.
      apply (lastn_app_full _ []), aged_length, Hd.
    + simpl. rewrite Z.add_0_r. symmetry. apply Z.mod_small. apply Hd.
    + congruence.
  - destruct (IH d Hmax Hd) as (d1 & Hrun & Hd1 & Hwin & Hidx & _).
    rewrite (ButtonProcess_each_snoc _ _ _ _ Hrun).
    rewrite ButtonProcess_done by assumption.
    eexists. split; [reflexivity |].
    assert (Haged : aged (mkDebouncer
                (<[Z.to_nat (index d1) := stored_sample w]> (state d1))
                (next_index (index d1)) 0 0) =
              lastn (Z.to_nat MAX_BUTTON_CHECKS)
                    (aged d ++ map stored_sample (ws ++ [w]))).
    { rewrite aged_step by assumption. rewrite Hwin.
      rewrite map_app, app_assoc. cbn [map]. apply lastn_snoc.
      rewrite length_app, aged_length by assumption. lia. }
    split; [| split; [| split]].
    + eapply ButtonProcess_in_bounds; [exact Hmax | exact Hd1 |].
      now rewrite ButtonProcess_done by assumption.
    + exact Haged.
    + cbv zeta. cbn [index]. rewrite next_index_mod by (assumption || apply Hd1).
      rewrite Hidx, length_app, Nat2Z.inj_add. cbn [length].
      rewrite Z.add_mod_idemp_l by lia. f_equal. lia.
    + intros _. cbv zeta. cbn [debouncedState].
      symmetry. apply (and_all_aged (mkDebouncer _ _ _ _)).
Qed.

Lemma each_snoc_changed ws w d :
  0 < MAX_BUTTON_CHECKS <= 255 ->
  in_bounds d ->
  exists d1 d',
    ButtonProcess_each ws d = Done tt d1 /\
    in_bounds d1 /\
    ButtonProcess_each (ws ++ [w]) d = Done tt d' /\
    changed d' = wrap8 (Z.lxor (debouncedState d') (debouncedState d1)).
Proof.
  intros Hmax Hd.
  destruct (each_state ws d Hmax Hd) as (d1 & Hrun & Hd1 & _).
  exists d1. eexists. split; [exact Hrun |]. split; [exact Hd1 |].
  rewrite (ButtonProcess_each_snoc _ _ _ _ Hrun).
  rewrite ButtonProcess_done by assumption. split; reflexivity.
Qed.

Lemma ask_same d1 d2 q :
  debouncedState d1 = debouncedState d2 ->
  changed d1 = changed d2 ->
  value (ask q d1) = value (ask q d2).
Proof.
  intros Hdeb Hchg. destruct q as [pin | pin |];
    unfold ask, ButtonPressed, ButtonReleased, ButtonDebouncedStateGet, bind,
      get_changed, get_debouncedState, ret; rewrite ?Hdeb, ?Hchg.
  - now destruct (negb _).
  - now destruct (negb _).
  - now destruct (Bool.eqb _ _).
Qed.

Lemma session_index samples raw :
  0 < MAX_BUTTON_CHECKS <= 255 ->
  storage raw ->
  exists d,
    session samples raw = Done tt d /\
    index d = Z.of_nat (length samples) mod MAX_BUTTON_CHECKS.
Proof.
  intros Hmax Hraw.
  assert (Hidle : in_bounds idle) by (split; simpl; [apply repeat_length | lia]).
  destruct (each_state samples idle Hmax Hidle) as (d & Hrun & _ & _ & Hidx & _).
  exists d. split; [| exact Hidx].
  unfold session, bind. now rewrite Debouncer_ctor_done by assumption.
Qed.

Lemma settled_after_full_window ws d :
  0 < MAX_BUTTON_CHECKS <= 255 ->
  in_bounds d ->
  (Z.to_nat MAX_BUTTON_CHECKS <= length ws)%nat ->
  exists d',
    ButtonProcess_each ws d = Done tt d' /\
    in_bounds d' /\
    debouncedState d' =
      and_all (lastn (Z.to_nat MAX_BUTTON_CHECKS) (map stored_sample ws)).
Proof.
  intros Hmax Hd Hlen.
  destruct (each_state ws d Hmax Hd) as (d' & Hrun & Hd' & Hwin & _ & Hdeb).
  exists d'. split; [exact Hrun |]. split; [exact Hd' |].
  rewrite Hdeb, Hwin.
  - now rewrite lastn_app_ge by (rewrite length_map; lia).
  - intros ->. simpl in Hlen. lia.
Qed.

Lemma StateGet_same d1 d2 :
  debouncedState d1 = debouncedState d2 ->
  value (ButtonDebouncedStateGet d1) = value (ButtonDebouncedStateGet d2).
Proof.
  intros Hdeb. unfold ButtonDebouncedStateGet, bind, get_debouncedState, ret.
  rewrite Hdeb. now destruct (Bool.eqb _ _).
Qed.

(** ** Further properties of the ring buffer *)

(** X1. After construction and k calls of [ButtonProcess] the write index
    is k modulo the history depth, the history read from the write index
    round (oldest entry first) is the last N of the values written so
    far, the constructor's N fill values 0xFF included, and the settled
    mask is the AND of exactly these. *)
Theorem ring_buffer_holds_last_samples raw samples :
  0 < MAX_BUTTON_CHECKS <= 255 ->
  storage raw ->
  exists d,
    session samples raw = Done tt d /\
    index d = Z.of_nat (length samples) mod MAX_BUTTON_CHECKS /\
    drop (Z.to_nat (index d)) (state d) ++ take (Z.to_nat (index d)) (state d) =
      lastn (Z.to_nat MAX_BUTTON_CHECKS)
            (repeat 255 (Z.to_nat MAX_BUTTON_CHECKS) ++ map stored_sample samples) /\
    debouncedState d =
      and_all (lastn (Z.to_nat MAX_BUTTON_CHECKS)
                 (repeat 255 (Z.to_nat MAX_BUTTON_CHECKS) ++
                  map stored_sample samples)).
Proof.
  intros Hmax Hraw.
  destruct (session_state samples raw Hmax Hraw) as (d & Hrun & _ & Hwin & Hdeb).
  destruct (session_index samples raw Hmax Hraw) as (d0 & Hrun0 & Hidx).
  rewrite Hrun in Hrun0. injection Hrun0 as <-.
  exists d. split; [exact Hrun |]. split; [exact Hidx |].
  split; [exact Hwin | exact Hdeb].
Qed.

(** X2. Window wrap-around from any starting point: once N or more calls
    of [ButtonProcess] have been made on an object, its settled mask is
    the AND of the last N stored samples whatever the object held before,
    so two objects fed the same samples give the same
    [ButtonDebouncedStateGet]; after more than N calls [changed] agrees
    as well, and with it the answer of every accessor for every mask. *)
Theorem prior_state_forgotten d1 d2 samples :
  0 < MAX_BUTTON_CHECKS <= 255 ->
  in_bounds d1 ->
  in_bounds d2 ->
  (Z.to_nat MAX_BUTTON_CHECKS <= length samples)%nat ->
  exists d1' d2',
    ButtonProcess_each samples d1 = Done tt d1' /\
    ButtonProcess_each samples d2 = Done tt d2' /\
    debouncedState d1' =
      and_all (lastn (Z.to_nat MAX_BUTTON_CHECKS) (map stored_sample samples)) /\
    debouncedState d2' = debouncedState d1' /\
    value (ButtonDebouncedStateGet d1') = value (ButtonDebouncedStateGet d2') /\
    ((Z.to_nat MAX_BUTTON_CHECKS < length samples)%nat ->
     changed d1' = changed d2' /\
     forall q, value (ask q d1') = value (ask q d2')).
Proof.
  intros Hmax Hd1 Hd2 Hlen.
  destruct (settled_after_full_window samples d1 Hmax Hd1 Hlen) as (d1' & Hrun1 & _ & Hdeb1).
  destruct (settled_after_full_window samples d2 Hmax Hd2 Hlen) as (d2' & Hrun2 & _ & Hdeb2).
  exists d1', d2'. split; [exact Hrun1 |]. split; [exact Hrun2 |].
  split; [exact Hdeb1 |].
  assert (Hdeb : debouncedState d2' = debouncedState d1') by congruence.
  split; [exact Hdeb |]. split; [now apply StateGet_same |].
  intros Hlt.
  destruct samples as [| w ws _] using rev_ind; [simpl in Hlt; lia |].
  rewrite length_app in Hlt. simpl in Hlt.
  destruct (each_snoc_changed ws w d1 Hmax Hd1) as (p1 & e1 & Hp1 & _ & He1 & Hc1).
  destruct (each_snoc_changed ws w d2 Hmax Hd2) as (p2 & e2 & Hp2 & _ & He2 & Hc2).
  rewrite Hrun1 in He1. injection He1 as <-.
  rewrite Hrun2 in He2. injection He2 as <-.
  destruct (settled_after_full_window ws d1 Hmax Hd1) as (p1' & Hp1' & _ & Hq1); [lia |].
  destruct (settled_after_full_window ws d2 Hmax Hd2) as (p2' & Hp2' & _ & Hq2); [lia |].
  rewrite Hp1 in Hp1'. injection Hp1' as <-.
  rewrite Hp2 in Hp2'. injection Hp2' as <-.
  assert (Hchg : changed d1' = changed d2') by congruence.
  split; [exact Hchg |]. intros q. now apply ask_same.
Qed.

(** ** Steady input, single calls, masks *)

Lemma complement8_range v : 0 <= v < 256 -> 0 <= complement8 v < 256.
Proof. intros Hv. unfold complement8. apply lxor_range; lia. Qed.

Lemma complement8_involutive v : complement8 (complement8 v) = v.
Proof.
  unfold complement8. now rewrite Z.lxor_assoc, Z.lxor_nilpotent, Z.lxor_0_r.
Qed.

Lemma stored_sample_range p : 0 <= p < 256 -> 0 <= stored_sample p < 256.
Proof.
  intros Hp. unfold stored_sample.
  destruct (Bool.eqb _ _); [apply wrap8_range | exact Hp].
Qed.

Lemma and_all_repeat_same s n :
  0 <= s < 256 -> and_all (repeat s (S n)) = s.
Proof.
  intros Hs. induction n as [| n IH].
  - simpl. now rewrite <- wrap8_land_255, wrap8_small.
  - change (repeat s (S (S n))) with (s :: repeat s (S n)).
    change (and_all (s :: repeat s (S n))) with (Z.land s (and_all (repeat s (S n)))).
    rewrite IH. apply Z.land_diag.
Qed.

Lemma lastn_repeat {A} (x : A) (n k : nat) :
  (n <= k)%nat -> lastn n (repeat x k) = repeat x n.
Proof.
  intros Hk. replace k with ((k - n) + n)%nat by lia.
  rewrite repeat_app. apply lastn_app_full, repeat_length.
Qed.

Lemma map_repeat_sample p k :
  map stored_sample (repeat p k) = repeat (stored_sample p) k.
Proof. induction k as [| k IH]; simpl; [reflexivity | now rewrite IH]. Qed.

Lemma settled_after_steady d p k :
  0 < MAX_BUTTON_CHECKS <= 255 ->
  in_bounds d ->
  0 <= p < 256 ->
  (Z.to_nat MAX_BUTTON_CHECKS <= k)%nat ->
  exists d',
    ButtonProcess_each (repeat p k) d = Done tt d' /\
    in_bounds d' /\
    debouncedState d' = stored_sample p.
Proof.
  intros Hmax Hd Hp Hk.
  destruct (settled_after_full_window (repeat p k) d Hmax Hd) as (d' & Hrun & Hd' & Hdeb);
    [now rewrite repeat_length |].
  exists d'. split; [exact Hrun |]. split; [exact Hd' |].
  rewrite Hdeb, map_repeat_sample, lastn_repeat by lia.
  destruct (Z.to_nat MAX_BUTTON_CHECKS) as [| n] eqn:Hn; [lia |].
  now apply and_all_repeat_same, stored_sample_range.
Qed.

Lemma StateGet_of_stored d p :
  0 <= p < 256 ->
  debouncedState d = stored_sample p ->
  value (ButtonDebouncedStateGet d) = Some p.
Proof.
  intros Hp Hdeb.
  unfold ButtonDebouncedStateGet, bind, get_debouncedState, ret.
  rewrite Hdeb. unfold stored_sample.
  destruct USING_BUTTON_PULLUPS; simpl; [reflexivity |].
  rewrite (wrap8_lnot p) by assumption.
  rewrite wrap8_lnot by now apply complement8_range.
  now rewrite complement8_involutive.
Qed.

Lemma ButtonPressed_value pin d :
  ButtonPressed pin d =
  Done (negb (Z.land (Z.land (changed d) (Z.lnot (debouncedState d))) pin =? 0)) d.
Proof.
  unfold ButtonPressed, bind, get_changed, get_debouncedState, ret.
  now destruct (negb _).
Qed.

Lemma ButtonReleased_value pin d :
  ButtonReleased pin d =
  Done (negb (Z.land (Z.land (changed d) (debouncedState d)) pin =? 0)) d.
Proof.
  unfold ButtonReleased, bind, get_changed, get_debouncedState, ret.
  now destruct (negb _).
Qed.

(** X3. Round trip of a steady port level: after N or more consecutive
    calls of [ButtonProcess] with one and the same 8-bit value, made on
    any object, [ButtonDebouncedStateGet] returns that very value, under
    either polarity; from the (N+1)-th such call on [changed] is 0 and
    [ButtonPressed] and [ButtonReleased] return false for every mask. *)
Theorem steady_level_read_back d p (k : nat) :
  0 < MAX_BUTTON_CHECKS <= 255 ->
  in_bounds d ->
  is_uint8 p ->
  (Z.to_nat MAX_BUTTON_CHECKS <= k)%nat ->
  exists d',
    ButtonProcess_each (repeat p k) d = Done tt d' /\
    value (ButtonDebouncedStateGet d') = Some p /\
    ((Z.to_nat MAX_BUTTON_CHECKS < k)%nat ->
     changed d' = 0 /\
     forall pin, value (ButtonPressed pin d') = Some false /\
                 value (ButtonReleased pin d') = Some false).
Proof.
  intros Hmax Hd Hp Hk.
  destruct (settled_after_steady d p k Hmax Hd Hp Hk) as (d' & Hrun & _ & Hdeb).
  exists d'. split; [exact Hrun |]. split; [now apply StateGet_of_stored |].
  intros Hlt. destruct k as [| k]; [lia |].
  assert (Hsnoc : repeat p (S k) = repeat p k ++ [p]).
  { replace (S k) with (k + 1)%nat by lia. now rewrite repeat_app. }
  destruct (each_snoc_changed (repeat p k) p d Hmax Hd) as (d1 & e & Hrun1 & _ & He & Hchg).
  rewrite <- Hsnoc, Hrun in He. injection He as <-.
  destruct (settled_after_steady d p k Hmax Hd Hp) as (d1' & Hrun1' & _ & Hdeb1); [lia |].
  rewrite Hrun1 in Hrun1'. injection Hrun1' as <-.
  assert (H0 : changed d' = 0).
  { rewrite Hchg, Hdeb, Hdeb1, Z.lxor_nilpotent. reflexivity. }
  split; [exact H0 |]. intros pin.
  rewrite ButtonPressed_value, ButtonReleased_value, H0.
  rewrite !Z.land_0_l. split; reflexivity.
Qed.

Lemma and_all_bit_low l v b :
  0 <= b -> In v l -> Z.testbit v b = false -> Z.testbit (and_all l) b = false.
Proof.
  intros Hb Hin Hv. rewrite and_all_testbit by assumption.
  apply andb_false_iff. left.
  apply not_true_is_false. intros Hall.
  rewrite forallb_forall in Hall. specialize (Hall v Hin). simpl in Hall. congruence.
Qed.

(** X4. A press is taken over at once, whatever the object held: one call
    of [ButtonProcess] whose sample has a pin at its pressed level leaves
    the pin reading pressed; [ButtonPressed] for the pin then returns
    true exactly when the pin's bit of the settled mask was 1 (released)
    before the call, and [ButtonReleased] returns false. *)
Theorem press_taken_at_once d portStatus b :
  0 < MAX_BUTTON_CHECKS <= 255 ->
  in_bounds d ->
  0 <= b < 8 ->
  raw_pressed portStatus b = true ->
  exists d',
    ButtonProcess portStatus d = Done tt d' /\
    reads_pressed d' b = true /\
    value (ButtonPressed (pin_mask b) d') = Some (Z.testbit (debouncedState d) b) /\
    value (ButtonReleased (pin_mask b) d') = Some false.
Proof.
  intros Hmax Hd Hb Hp. rewrite ButtonProcess_done by assumption.
  eexists. split; [reflexivity |]. cbv zeta.
  assert (Hlow : Z.testbit
            (and_all (<[Z.to_nat (index d) := stored_sample portStatus]> (state d))) b
            = false).
  { apply (and_all_bit_low _ (stored_sample portStatus)); [lia | |].
    - apply list_elem_of_In. eapply list_elem_of_lookup_2.
      apply list_lookup_insert_eq. destruct Hd as [Hlen Hidx]. lia.
    - rewrite stored_sample_bit, Hp by assumption. reflexivity. }
  rewrite reads_pressed_bit, ButtonPressed_pin, ButtonReleased_pin by lia.
  cbn [debouncedState changed].
  rewrite testbit_wrap8, Z.lxor_spec, Hlow by lia.
  destruct (Z.ltb_spec b 8); [| lia].
  repeat split; simpl; try reflexivity.
  - now rewrite !andb_true_r.
  - now rewrite andb_false_r.
Qed.

(** X5. The pin argument is a mask: for the OR of two masks
    [ButtonPressed] returns the disjunction of its answers for the two
    masks, and so does [ButtonReleased]; for the empty mask both return
    false. *)
Theorem edge_queries_distribute_over_masks d m1 m2 :
  (exists p1 p2,
     value (ButtonPressed m1 d) = Some p1 /\
     value (ButtonPressed m2 d) = Some p2 /\
     value (ButtonPressed (Z.lor m1 m2) d) = Some (p1 || p2)) /\
  (exists r1 r2,
     value (ButtonReleased m1 d) = Some r1 /\
     value (ButtonReleased m2 d) = Some r2 /\
     value (ButtonReleased (Z.lor m1 m2) d) = Some (r1 || r2)) /\
  value (ButtonPressed 0 d) = Some false /\
  value (ButtonReleased 0 d) = Some false.
Proof.
  assert (Hor : forall x, (Z.land x (Z.lor m1 m2) =? 0) =
                          (Z.land x m1 =? 0) && (Z.land x m2 =? 0)).
  { intros x. rewrite Z.land_lor_distr_r.
    destruct (Z.eqb_spec (Z.land x m1) 0) as [-> | H1]; simpl.
    - now rewrite Z.lor_0_l.
    - apply Z.eqb_neq. intros H0. apply Z.lor_eq_0_iff in H0 as [H0 _]. contradiction. }
  rewrite !ButtonPressed_value, !ButtonReleased_value. simpl.
  rewrite !Hor, !Z.land_0_r, !negb_andb. simpl.
  split; [eexists _, _; repeat split | split; [eexists _, _; repeat split | split; reflexivity]].
Qed.

(** ** The settled bit and the edges in terms of the samples *)

Lemma forallb_repeat {A} (f : A -> bool) (x : A) (n : nat) :
  f x = true -> forallb f (repeat x n) = true.
Proof. intros Hx. induction n as [| n IH]; simpl; [reflexivity | now rewrite Hx]. Qed.

Lemma lastn_all {A} (n : nat) (l : list A) :
  (length l <= n)%nat -> lastn n l = l.
Proof.
  intros Hn. unfold lastn. now replace (length l - n)%nat with 0%nat by lia.
Qed.

(** Fill values that satisfy [f] do not matter to a [forallb] over the
    window. *)
Lemma forallb_lastn_fill {A} (f : A -> bool) (fill : A) (n : nat) (l : list A) :
  f fill = true ->
  forallb f (lastn n (repeat fill n ++ l)) = forallb f (lastn n l).
Proof.
  intros Hfill. destruct (Nat.le_gt_cases n (length l)) as [Hle | Hgt].
  - now rewrite lastn_app_ge by lia.
  - rewrite lastn_app_le, forallb_app, (lastn_all n l) by lia.
    unfold lastn. rewrite forallb_drop by now apply forallb_repeat.
    reflexivity.
Qed.

Lemma lastn_map {A B} (f : A -> B) (n : nat) (l : list A) :
  lastn n (map f l) = map f (lastn n l).
Proof. unfold lastn. now rewrite length_map, skipn_map. Qed.

Lemma forallb_pointwise {A} (f g : A -> bool) (l : list A) :
  (forall x, f x = g x) -> forallb f l = forallb g l.
Proof.
  intros Hfg. induction l as [| x l IH]; simpl; [reflexivity |].
  now rewrite Hfg, IH.
Qed.

Lemma window_bits samples b :
  0 <= b < 8 ->
  Z.testbit (settled samples) b =
  forallb (fun x => negb (raw_pressed x b))
          (lastn (Z.to_nat MAX_BUTTON_CHECKS) samples).
Proof.
  intros Hb. rewrite settled_bit by assumption. unfold window.
  rewrite forallb_lastn_fill
    by (rewrite testbit_255 by lia; apply Z.ltb_lt; lia).
  rewrite lastn_map, forallb_of_map.
  apply forallb_pointwise. intros x. now apply stored_sample_bit.
Qed.

Lemma negb_forallb_negb {A} (f : A -> bool) (l : list A) :
  negb (forallb (fun x => negb (f x)) l) = existsb f l.
Proof.
  induction l as [| x l IH]; simpl; [reflexivity |].
  rewrite negb_andb, negb_involutive, IH. reflexivity.
Qed.

Lemma lastn_snoc_split {A} (n : nat) (l : list A) (x : A) :
  (0 < n)%nat -> lastn n (l ++ [x]) = lastn (n - 1) l ++ [x].
Proof. intros Hn. apply lastn_app_le. simpl. lia. Qed.

Lemma forallb_lastn_less {A} (f : A -> bool) (n m : nat) (l : list A) :
  (m <= n)%nat ->
  forallb f (lastn n l) = true -> forallb f (lastn m l) = true.
Proof.
  intros Hmn Hall. unfold lastn in *.
  replace (length l - m)%nat
    with ((length l - n) + ((length l - m) - (length l - n)))%nat by lia.
  rewrite <- drop_drop. now apply forallb_drop.
Qed.

(** X6. A press latches for N samples: after construction and any run of
    samples, a pin reads pressed exactly when at least one of the last N
    samples (all of them if fewer were fed) had the pin at its pressed
    level. *)
Theorem pressed_iff_pressed_sample_in_window raw samples b :
  0 < MAX_BUTTON_CHECKS <= 255 ->
  storage raw ->
  0 <= b < 8 ->
  exists d,
    session samples raw = Done tt d /\
    reads_pressed d b =
      existsb (fun x => raw_pressed x b)
              (lastn (Z.to_nat MAX_BUTTON_CHECKS) samples).
Proof.
  intros Hmax Hraw Hb.
  destruct (session_pin samples raw b Hmax Hraw Hb) as (d & Hrun & Hdeb & _).
  exists d. split; [exact Hrun |].
  rewrite reads_pressed_bit, Hdeb, window_bits by assumption.
  apply negb_forallb_negb.
Qed.

(** X7. When a press edge is reported: after construction, the call that
    processes sample [x] makes [ButtonPressed] true for a pin exactly
    when [x] has the pin at its pressed level and none of the N samples
    before it (all earlier ones if fewer) had. *)
Theorem press_edge_iff raw samples x b :
  0 < MAX_BUTTON_CHECKS <= 255 ->
  storage raw ->
  0 <= b < 8 ->
  exists d,
    session (samples ++ [x]) raw = Done tt d /\
    value (ButtonPressed (pin_mask b) d) =
      Some (raw_pressed x b &&
            forallb (fun y => negb (raw_pressed y b))
                    (lastn (Z.to_nat MAX_BUTTON_CHECKS) samples)).
Proof.
  intros Hmax Hraw Hb.
  destruct (session_pin (samples ++ [x]) raw b Hmax Hraw Hb) as (d & Hrun & Hdeb & Hchg).
  exists d. split; [exact Hrun |].
  rewrite ButtonPressed_pin, Hchg, Hdeb, removelast_last by lia.
  rewrite !window_bits by assumption.
  rewrite lastn_snoc_split, forallb_app by lia. cbn [forallb].
  rewrite andb_true_r.
  destruct (forallb _ (lastn (Z.to_nat MAX_BUTTON_CHECKS) samples)) eqn:Hold.
  - rewrite (forallb_lastn_less _ (Z.to_nat MAX_BUTTON_CHECKS)) by (lia || assumption).
    simpl. now destruct (raw_pressed x b).
  - destruct (forallb _ (lastn (Z.to_nat MAX_BUTTON_CHECKS - 1) samples)),
      (raw_pressed x b); reflexivity.
Qed.

(** X8. When a release edge is reported: after construction, the call
    that processes sample [x] makes [ButtonReleased] true for a pin
    exactly when the last N samples, [x] included, all have the pin at
    its released level and the sample just before them had it pressed. *)
Theorem release_edge_iff raw before w middle x b :
  0 < MAX_BUTTON_CHECKS <= 255 ->
  storage raw ->
  0 <= b < 8 ->
  length middle = (Z.to_nat MAX_BUTTON_CHECKS - 1)%nat ->
  exists d,
    session (before ++ w :: middle ++ [x]) raw = Done tt d /\
    value (ButtonReleased (pin_mask b) d) =
      Some (raw_pressed w b &&
            forallb (fun y => negb (raw_pressed y b)) (middle ++ [x])).
Proof.
  intros Hmax Hraw Hb Hlen.
  assert (Hshape : before ++ w :: middle ++ [x] = (before ++ w :: middle) ++ [x])
    by now rewrite <- app_assoc.
  destruct (session_pin (before ++ w :: middle ++ [x]) raw b Hmax Hraw Hb)
    as (d & Hrun & Hdeb & Hchg).
  exists d. split; [exact Hrun |].
  rewrite ButtonReleased_pin, Hchg, Hdeb by lia.
  rewrite Hshape at 2. rewrite removelast_last, !window_bits by assumption.
  change (before ++ w :: middle ++ [x]) with (before ++ [w] ++ (middle ++ [x])).
  rewrite app_assoc, (lastn_app_full _ (before ++ [w]))
    by (rewrite length_app; simpl; lia).
  rewrite (lastn_app_full _ before (w :: middle)) by (simpl; lia).
  rewrite forallb_app. cbn [forallb].
  destruct (raw_pressed w b), (forallb _ middle), (raw_pressed x b); reflexivity.
Qed.

Lemma session_uint8 samples raw :
  0 < MAX_BUTTON_CHECKS <= 255 ->
  storage raw ->
  exists d,
    session samples raw = Done tt d /\
    0 <= debouncedState d < 256 /\ 0 <= changed d < 256.
Proof.
  intros Hmax Hraw.
  destruct samples as [| p samples _] using rev_ind.
  - exists idle. split; [now apply session_nil |]. simpl. lia.
  - destruct (session_changed samples p raw Hmax Hraw) as (d & Hrun & Hdeb & Hchg).
    exists d. split; [exact Hrun |]. rewrite Hdeb, Hchg.
    split; [apply and_all_range | apply lxor_range; apply and_all_range].
Qed.

Lemma uint8_high_bit v b : 0 <= v < 256 -> 8 <= b -> Z.testbit v b = false.
Proof.
  intros Hv Hb. rewrite <- (wrap8_small v Hv), testbit_wrap8 by lia.
  destruct (Z.ltb_spec b 8); [lia | apply andb_false_r].
Qed.

(** X9. No release edge before the window has been filled once: during
    the first N calls of [ButtonProcess] after construction
    [ButtonReleased] returns false for every mask. *)
Theorem no_release_within_first_window raw samples :
  0 < MAX_BUTTON_CHECKS <= 255 ->
  storage raw ->
  (length samples <= Z.to_nat MAX_BUTTON_CHECKS)%nat ->
  exists d,
    session samples raw = Done tt d /\
    forall pin, value (ButtonReleased pin d) = Some false.
Proof.
  intros Hmax Hraw Hlen.
  destruct (session_uint8 samples raw Hmax Hraw) as (d & Hrun & Hdeb & Hchg).
  exists d. split; [exact Hrun |]. intros pin.
  rewrite ButtonReleased_value.
  assert (H0 : Z.land (changed d) (debouncedState d) = 0).
  { apply Z.bits_inj'. intros b Hb. rewrite Z.land_spec, Z.bits_0.
    destruct (Z.ltb_spec b 8) as [Hlt | Hge].
    - destruct (session_pin samples raw b Hmax Hraw) as (d' & Hrun' & Hd & Hc); [lia |].
      rewrite Hrun in Hrun'. injection Hrun' as <-.
      rewrite Hc, Hd, !window_bits by lia.
      destruct samples as [| x samples _] using rev_ind; [reflexivity |].
      rewrite length_app in Hlen. simpl in Hlen.
      rewrite removelast_last, !lastn_all by (rewrite ?length_app; simpl; lia).
      rewrite forallb_app. cbn [forallb].
      destruct (forallb _ samples), (raw_pressed x b); reflexivity.
    - rewrite (uint8_high_bit (changed d)) by lia. reflexivity. }
  now rewrite H0, Z.land_0_l.
Qed.

(** ** The returned mask as AND or OR of the raw samples *)

Lemma or_all_testbit l b :
  Z.testbit (or_all l) b = existsb (fun v => Z.testbit v b) l.
Proof.
  induction l as [| v l IH]; simpl.
  - apply Z.bits_0.
  - now rewrite Z.lor_spec, IH.
Qed.

Lemma all_uint8_high_bits samples b :
  all_uint8 samples = true ->
  8 <= b ->
  forallb (fun v => negb (Z.testbit v b)) samples = true.
Proof.
  unfold all_uint8. rewrite !forallb_forall. intros Hall Hb v Hv.
  specialize (Hall v Hv). apply andb_true_iff in Hall as [H0 H1].
  apply Z.leb_le in H0. apply Z.ltb_lt in H1.
  now rewrite uint8_high_bit by lia.
Qed.

(** X10. What [ButtonDebouncedStateGet] returns in terms of the raw
    samples: after construction and a run of 8-bit samples it is, with
    pull-ups, the bitwise AND of the last N samples (missing ones counting
    as 0xFF) and, with pull-downs, the bitwise OR of the last N samples
    (missing ones counting as 0). *)
Theorem StateGet_is_and_or_of_raw_samples raw samples :
  0 < MAX_BUTTON_CHECKS <= 255 ->
  storage raw ->
  all_uint8 samples = true ->
  exists d,
    session samples raw = Done tt d /\
    value (ButtonDebouncedStateGet d) =
      Some (if USING_BUTTON_PULLUPS
            then and_all (lastn (Z.to_nat MAX_BUTTON_CHECKS)
                            (repeat 255 (Z.to_nat MAX_BUTTON_CHECKS) ++ samples))
            else or_all (lastn (Z.to_nat MAX_BUTTON_CHECKS)
                           (repeat 0 (Z.to_nat MAX_BUTTON_CHECKS) ++ samples))).
Proof.
  intros Hmax Hraw Hall.
  destruct (session_state samples raw Hmax Hraw) as (d & Hrun & _ & _ & Hdeb).
  exists d. split; [exact Hrun |].
  unfold ButtonDebouncedStateGet, bind, get_debouncedState, ret.
  destruct USING_BUTTON_PULLUPS eqn:Hpull; simpl; f_equal.
  - rewrite Hdeb. unfold settled, window, stored_sample. rewrite Hpull. simpl.
    now rewrite map_id.
  - apply Z.bits_inj'. intros b Hb.
    rewrite testbit_wrap8, Z.lnot_spec, or_all_testbit by lia.
    rewrite <- negb_forallb_negb.
    destruct (Z.ltb_spec b 8) as [Hlt | Hge].
    + rewrite andb_true_r. f_equal.
      rewrite Hdeb, window_bits by lia.
      rewrite forallb_lastn_fill by (now rewrite Z.bits_0).
      apply forallb_pointwise. intros x. unfold raw_pressed. now rewrite Hpull.
    + rewrite andb_false_r. symmetry. apply negb_false_iff.
      rewrite forallb_lastn_fill by (now rewrite Z.bits_0).
      unfold lastn. apply forallb_drop. now apply all_uint8_high_bits.
Qed.

(** ** Press and release edges come in pairs *)

(** X11. Over any run of the polling loop, started on any object, the
    press edges and the release edges reported for a pin balance: the
    number of ticks with [ButtonPressed] true, plus one if the pin read
    pressed at the start, equals the number of ticks with
    [ButtonReleased] true, plus one if the pin reads pressed at the
    end. *)
Theorem edges_balance samples : forall d b,
  0 < MAX_BUTTON_CHECKS <= 255 ->
  in_bounds d ->
  0 <= b < 8 ->
  exists answers d',
    poll (pin_mask b) samples d = Done answers d' /\
    ButtonProcess_each samples d = Done tt d' /\
    length answers = length samples /\
    (tally (map fst answers) + (if reads_pressed d b then 1 else 0) =
     tally (map snd answers) + (if reads_pressed d' b then 1 else 0))%nat.
Proof.
  induction samples as [| x rest IH]; intros d b Hmax Hd Hb.
  - exists [], d. repeat split; reflexivity.
  - pose proof (ButtonProcess_done x d Hmax Hd) as Hstep. cbv zeta in Hstep.
    set (d1 := mkDebouncer _ _ _ _) in Hstep.
    assert (Hd1 : in_bounds d1)
      by (eapply ButtonProcess_in_bounds; [exact Hmax | exact Hd | exact Hstep]).
    destruct (IH d1 b Hmax Hd1 Hb) as (later & d' & Hpoll & Hrun & Hlen & Hbal).
    exists ((Z.testbit (changed d1) b && negb (Z.testbit (debouncedState d1) b),
             Z.testbit (changed d1) b && Z.testbit (debouncedState d1) b) :: later), d'.
    split; [| split; [| split]].
    + cbn [poll]. unfold bind. rewrite Hstep.
      rewrite ButtonPressed_pin, ButtonReleased_pin by lia.
      rewrite Hpoll. reflexivity.
    + cbn [ButtonProcess_each]. unfold bind. now rewrite Hstep.
    + simpl. now rewrite Hlen.
    + cbn [map fst snd tally].
      rewrite reads_pressed_bit in * by assumption.
      assert (Hchg : Z.testbit (changed d1) b =
                     xorb (Z.testbit (debouncedState d1) b)
                          (Z.testbit (debouncedState d) b)).
      { subst d1. cbn [changed debouncedState].
        rewrite testbit_wrap8, Z.lxor_spec by lia.
        destruct (Z.ltb_spec b 8); [apply andb_true_r | lia]. }
      rewrite Hchg.
      destruct (Z.testbit (debouncedState d1) b),
        (Z.testbit (debouncedState d) b); simpl in *; lia.
Qed.

(** ** Outside the documented range of [MAX_BUTTON_CHECKS] *)

Lemma init_loop_never_exits fuel : forall i d,
  256 <= MAX_BUTTON_CHECKS ->
  0 <= i < 256 ->
  storage d ->
  for_checks fuel i (fun j => store_state j 255) d = Diverges.
Proof.
  induction fuel as [| fuel IH]; intros i d Hmax Hi Hd; simpl; [reflexivity |].
  destruct (Z.ltb_spec i MAX_BUTTON_CHECKS); [| lia].
  unfold store_state. destruct (Z.ltb_spec i 0); [lia |].
  unfold storage in Hd.
  destruct (lookup_lt_is_Some_2 (state d) (Z.to_nat i)) as [v Hv]; [lia |].
  rewrite Hv. apply IH; [assumption | apply wrap8_range |].
  unfold storage. simpl. now rewrite length_insert.
Qed.

Lemma and_loop_never_exits fuel : forall i d,
  256 <= MAX_BUTTON_CHECKS ->
  0 <= i < 256 ->
  storage d ->
  for_checks fuel i
    (fun j => do acc <- get_debouncedState in
              do s <- load_state j in
              set_debouncedState (wrap8 (Z.land acc s))) d = Diverges.
Proof.
  induction fuel as [| fuel IH]; intros i d Hmax Hi Hd; simpl; [reflexivity |].
  destruct (Z.ltb_spec i MAX_BUTTON_CHECKS); [| lia].
  unfold bind, get_debouncedState, load_state, set_debouncedState.
  destruct (Z.ltb_spec i 0); [lia |].
  unfold storage in Hd.
  destruct (lookup_lt_is_Some_2 (state d) (Z.to_nat i)) as [v Hv]; [lia |].
  rewrite Hv. apply IH; [assumption | apply wrap8_range | exact Hd].
Qed.

(** X12. With 256 or more history slots neither the constructor nor
    [ButtonProcess] ever returns: the [uint8_t] loop counter stays below
    the bound, so the loops run on however many iterations are allowed
    (all their array accesses being in bounds). *)
Theorem too_many_checks_never_return :
  256 <= MAX_BUTTON_CHECKS ->
  (forall raw, storage raw ->
     Debouncer_ctor raw = Diverges /\
     forall fuel, for_checks fuel 0 (fun i => store_state i 255) raw = Diverges) /\
  (forall d portStatus, storage d -> 0 <= index d < MAX_BUTTON_CHECKS ->
     ButtonProcess portStatus d = Diverges).
Proof.
  intros Hmax. split.
  - intros raw Hraw. split.
    + unfold Debouncer_ctor, bind, set_index, set_debouncedState, set_changed.
      now apply init_loop_never_exits.
    + intros fuel. now apply init_loop_never_exits.
  - intros d p Hd Hidx.
    unfold ButtonProcess, bind at 1 2 3 4, get_debouncedState at 1, get_index at 1,
      store_state, set_debouncedState at 1.
    destruct (Z.ltb_spec (index d) 0); [lia |].
    unfold storage in Hd.
    destruct (lookup_lt_is_Some_2 (state d) (Z.to_nat (index d))) as [v Hv]; [lia |].
    rewrite Hv. cbv beta iota. unfold bind at 1.
    rewrite and_loop_never_exits; try assumption; try lia; [reflexivity |].
    unfold storage. simpl. now rewrite length_insert.
Qed.

(** X13. With no history slot at all the constructor still returns (its
    loop body never runs), but every call of [ButtonProcess] writes
    outside the array. *)
Theorem no_checks_write_out_of_bounds raw :
  MAX_BUTTON_CHECKS = 0 ->
  storage raw ->
  exists d,
    Debouncer_ctor raw = Done tt d /\
    forall portStatus, ButtonProcess portStatus d = Undefined.
Proof.
  intros Hmax Hraw. unfold storage in Hraw. rewrite Hmax in Hraw. simpl in Hraw.
  destruct raw as [st i ds c]. simpl in Hraw.
  destruct st; [| discriminate].
  exists (mkDebouncer [] 0 255 0). split.
  - unfold Debouncer_ctor, bind, set_index, set_debouncedState, set_changed.
    simpl. rewrite Hmax. reflexivity.
  - intros p. reflexivity.
Qed.

(** X16. The edge queries agree with the state query, on any object:
    when [ButtonPressed] returns true for a pin, the mask handed out by
    [ButtonDebouncedStateGet] shows that pin at its pressed level, and
    when [ButtonReleased] returns true it shows the pin at its released
    level. *)
Theorem edges_agree_with_state d b :
  0 <= b < 8 ->
  (value (ButtonPressed (pin_mask b) d) = Some true -> reads_pressed d b = true) /\
  (value (ButtonReleased (pin_mask b) d) = Some true -> reads_pressed d b = false).
Proof.
  intros Hb.
  rewrite ButtonPressed_pin, ButtonReleased_pin, reads_pressed_bit by lia.
  simpl. split; intros H; injection H as H;
    destruct (Z.testbit (changed d) b), (Z.testbit (debouncedState d) b);
    simpl in *; congruence.
Qed.

End Debouncer.

(** ** The claims that fail on the code, at the default depth of 10 with
    pull-ups and pin 0 *)

(** C2 does not hold as stated: with ten checks and pull-ups, feeding
    pin 0 low (pressed) ten times makes [ButtonPressed] return true on the
    first call already, where the pin also reads pressed, and false on
    the tenth call. *)
Lemma press_reported_before_Nth_call :
  forallb (fun x => raw_pressed true x 0) (repeat 254 10) = true /\
  after_session 10 true (repeat 254 1) (ButtonPressed (pin_mask 0)) (blank 10)
    = Some true /\
  after_session 10 true (repeat 254 1) (read_pin true 0) (blank 10)
    = Some true /\
  after_session 10 true (repeat 254 10) (ButtonPressed (pin_mask 0)) (blank 10)
    = Some false.
Proof. repeat split; vm_compute; reflexivity. Qed.

(** C3 does not hold as stated: with ten checks and pull-ups, pin 0 is
    confirmed pressed after ten low samples; one high (released) sample
    then leaves the pin reading pressed and [ButtonReleased] false. *)
Lemma single_release_sample_ignored :
  after_session 10 true (repeat 254 10) (read_pin true 0) (blank 10)
    = Some true /\
  raw_pressed true 255 0 = false /\
  after_session 10 true (repeat 254 10 ++ [255]) (read_pin true 0) (blank 10)
    = Some true /\
  after_session 10 true (repeat 254 10 ++ [255]) (ButtonReleased (pin_mask 0))
    (blank 10) = Some false.
Proof. repeat split; vm_compute; reflexivity. Qed.

(** C4 does not hold as stated: with ten checks and pull-ups, the first
    of the three alternating samples 254, 255, 254 already flips bit 0
    of the settled mask, from 1 after construction to 0. *)
Lemma first_bounce_flips_state :
  alternating true 0 true [254; 255; 254] = true /\
  Z.of_nat (length [254; 255; 254]) < 10 /\
  after_session 10 true [] get_debouncedState (blank 10) = Some 255 /\
  after_session 10 true (take 1 [254; 255; 254]) get_debouncedState (blank 10)
    = Some 254 /\
  Z.testbit 255 0 <> Z.testbit 254 0.
Proof. repeat split; try (vm_compute; reflexivity). vm_compute. discriminate. Qed.

(** C5 does not hold as stated: with pull-ups the constructed object,
    whose settled mask is 255, answers 255 and not the complement 0. *)
Lemma StateGet_pullups_not_inverted :
  value (ButtonDebouncedStateGet true (idle 10)) = Some 255 /\
  value (ButtonDebouncedStateGet true (idle 10)) <>
    Some (complement8 (debouncedState (idle 10))).
Proof. split; [reflexivity | vm_compute; discriminate]. Qed.

(** C6 does not hold as stated: with pull-ups the freshly constructed
    object answers 255, in which, under the contract that a 1 bit means
    pressed, each of the eight pins reads pressed. *)
Lemma idle_mask_reads_pressed_under_contract :
  value (bind (Debouncer_ctor 10) (fun _ => ButtonDebouncedStateGet true)
              (blank 10)) = Some 255 /\
  forallb (contract_pressed 255) [0; 1; 2; 3; 4; 5; 6; 7] = true.
Proof. split; vm_compute; reflexivity. Qed.

(** ** The bounds on [MAX_BUTTON_CHECKS] are needed *)

(** With no history slot at all, the first [ButtonProcess] writes outside
    the array. *)
Example zero_checks_out_of_bounds :
  session 0 true [254] (blank 0) = Undefined.
Proof. reflexivity. Qed.

(** With 256 slots the [uint8_t] loop counter never reaches the bound. *)
Example too_many_checks_diverge :
  Debouncer_ctor 256 (blank 256) = Diverges.
Proof. vm_compute. reflexivity. Qed.

(** ** The theorems at concrete inputs *)

Lemma ButtonProcess_steps_witness :
  ButtonProcess 10 false 1 (mkDebouncer (repeat 255 10) 9 255 0) =
  Done tt (spec_ButtonProcess 10 false 1 (mkDebouncer (repeat 255 10) 9 255 0)).
Proof.
  apply (ButtonProcess_steps 10 false 1 (mkDebouncer (repeat 255 10) 9 255 0));
    [lia | split; [reflexivity | simpl; lia]
    | unfold is_uint8; simpl; lia | unfold is_uint8; lia].
Defined.

Lemma index_stays_in_bounds_witness :
  exists d',
    ButtonProcess 10 true 254 (mkDebouncer (repeat 255 10) 9 255 0) = Done tt d' /\
    in_bounds 10 d'.
Proof.
  apply (proj2 (index_stays_in_bounds 10 true ltac:(lia))).
  split; [reflexivity | simpl; lia].
Defined.

Lemma pressed_released_exclusive_witness :
  Z.land (Z.land 1 (Z.lnot 254)) (Z.land 1 254) = 0 /\
  ~ (value (ButtonPressed (pin_mask 0) (mkDebouncer (repeat 254 3) 1 254 1))
       = Some true /\
     value (ButtonReleased (pin_mask 0) (mkDebouncer (repeat 254 3) 1 254 1))
       = Some true).
Proof.
  apply (pressed_released_exclusive (mkDebouncer (repeat 254 3) 1 254 1) 0). lia.
Defined.

Lemma StateGet_polarity_witness :
  value (ButtonDebouncedStateGet false (mkDebouncer (repeat 254 3) 1 254 1)) =
    Some (complement8 254) /\
  (forall b, 0 <= b < 8 ->
     reads_pressed false (mkDebouncer (repeat 254 3) 1 254 1) b =
     negb (Z.testbit 254 b)).
Proof.
  apply (StateGet_polarity false (mkDebouncer (repeat 254 3) 1 254 1)).
  unfold is_uint8; simpl; lia.
Defined.

Lemma idle_after_construction_witness :
  exists d,
    Debouncer_ctor 10 (blank 10) = Done tt d /\
    value (ButtonDebouncedStateGet true d) = Some 255 /\
    (forall b, 0 <= b < 8 -> reads_pressed true d b = false) /\
    (forall pin, value (ButtonPressed pin d) = Some false) /\
    (forall pin, value (ButtonReleased pin d) = Some false).
Proof.
  apply (idle_after_construction 10 true (blank 10)); [lia | reflexivity].
Defined.

Lemma press_confirmed_on_first_call_witness :
  exists d,
    session 10 true (take 10 (repeat 254 10)) (blank 10) = Done tt d /\
    reads_pressed true d 0 = true /\
    value (ButtonPressed (pin_mask 0) d) = Some (10 =? 1)%nat.
Proof.
  apply (press_confirmed_on_first_call 10 true (blank 10) (repeat 254 10) 0 10);
    [lia | reflexivity | lia | reflexivity | simpl; lia].
Defined.

Lemma release_confirmed_on_Nth_call_witness :
  exists d,
    session 3 true ([254; 254] ++ 254 :: take 3 [255; 255; 255; 255]) (blank 3)
      = Done tt d /\
    reads_pressed true d 0 = (3 <? Z.to_nat 3)%nat /\
    value (ButtonReleased (pin_mask 0) d) = Some (3 =? Z.to_nat 3)%nat.
Proof.
  apply (release_confirmed_on_Nth_call 3 true (blank 3) [254; 254] 254
           [255; 255; 255; 255] 0 3);
    [lia | reflexivity | lia | reflexivity | reflexivity | simpl; lia].
Defined.

Lemma bounce_flips_on_first_call_only_witness :
  exists d,
    session 10 true (take 3 [254; 255; 254]) (blank 10) = Done tt d /\
    reads_pressed true d 0 = true /\
    Z.testbit (changed d) 0 = (3 =? 1)%nat.
Proof.
  apply (bounce_flips_on_first_call_only 10 true (blank 10) [254; 255; 254] 0 3);
    [lia | reflexivity | lia | reflexivity | simpl; lia | simpl; lia].
Defined.

Lemma pins_independent_witness :
  exists d1 d2,
    session 10 true (take 3 [254; 255; 0]) (blank 10) = Done tt d1 /\
    session 10 true (take 3 [0; 3; 170]) (blank 10) = Done tt d2 /\
    Z.testbit (debouncedState d1) 0 = Z.testbit (debouncedState d2) 0 /\
    reads_pressed true d1 0 = reads_pressed true d2 0 /\
    value (ButtonPressed (pin_mask 0) d1) = value (ButtonPressed (pin_mask 0) d2) /\
    value (ButtonReleased (pin_mask 0) d1) = value (ButtonReleased (pin_mask 0) d2).
Proof.
  apply (pins_independent 10 true (blank 10) (blank 10) [254; 255; 0] [0; 3; 170] 0 3);
    [lia | reflexivity | reflexivity | lia | reflexivity].
Defined.

(** ** The comparison macros of common_msp.h *)

Lemma representable_int bits v :
  representable bits (mkCint true v) = true ->
  - 2 ^ (bits - 1) <= v < 2 ^ (bits - 1).
Proof.
  unfold representable. simpl. intros H.
  apply andb_true_iff in H as [H1 H2].
  apply Z.leb_le in H1. apply Z.ltb_lt in H2. lia.
Qed.

Lemma representable_unsigned bits v :
  representable bits (mkCint false v) = true ->
  0 <= v < 2 ^ bits /\ v mod 2 ^ bits = v.
Proof.
  unfold representable. simpl. intros H.
  apply andb_true_iff in H as [H1 H2].
  apply Z.leb_le in H1. apply Z.ltb_lt in H2.
  split; [lia | apply Z.mod_small; lia].
Qed.

Lemma negative_int_as_unsigned bits v :
  0 < bits ->
  - 2 ^ (bits - 1) <= v < 0 ->
  v mod 2 ^ bits = 2 ^ bits + v /\ 2 ^ bits = 2 * 2 ^ (bits - 1).
Proof.
  intros Hbits Hv.
  assert (Hpow : 2 ^ bits = 2 * 2 ^ (bits - 1)).
  { replace bits with (Z.succ (bits - 1)) at 1 by lia.
    apply Z.pow_succ_r. lia. }
  split; [| exact Hpow].
  rewrite <- (Z_mod_plus_full v 1 (2 ^ bits)).
  rewrite Z.mod_small; lia.
Qed.










(** X17. Mixed signedness, negative argument: a negative [int] argument
    constrained between [unsigned int] bounds [lower <= upper], with
    [upper] below [2 ^ (bits - 1)], is compared as the large unsigned
    value it converts to, so [a < lower] is false and [CONSTRAIN] yields
    [upper], not [lower]. *)
Theorem CONSTRAIN_negative_int_unsigned_bounds bits a lower upper :
  0 < bits ->
  int_signed a = true ->
  int_signed lower = false ->
  int_signed upper = false ->
  representable bits a = true ->
  representable bits lower = true ->
  representable bits upper = true ->
  int_value a < 0 ->
  int_value lower <= int_value upper ->
  int_value upper < 2 ^ (bits - 1) ->
  less bits a lower = false /\
  CONSTRAIN bits a lower upper = upper.
Proof.
  destruct a as [sa va], lower as [sl vl], upper as [su vu]. simpl.
  intros Hbits -> -> -> Ha Hl Hu Hneg Hle Hup.
  apply representable_int in Ha.
  apply representable_unsigned in Hl as [Hl Hml].
  apply representable_unsigned in Hu as [Hu Hmu].
  destruct (negative_int_as_unsigned bits va Hbits) as [Hma Hpow]; [lia |].
  unfold CONSTRAIN, conditional, less, usual_signed, converted.
  cbn [int_signed int_value andb]. rewrite Hma, Hml, Hmu.
  destruct (Z.ltb_spec (2 ^ bits + va) vl); [lia |].
  destruct (Z.ltb_spec vu (2 ^ bits + va)); [| lia].
  cbn [int_signed int_value andb]. now rewrite Hmu, Hmu.
Qed.


(** ** The further theorems at concrete inputs *)

Lemma ring_buffer_holds_last_samples_witness :
  exists d,
    session 3 false [1; 2; 3; 4] (blank 3) = Done tt d /\
    index d = Z.of_nat (length [1; 2; 3; 4]) mod 3 /\
    drop (Z.to_nat (index d)) (state d) ++ take (Z.to_nat (index d)) (state d) =
      lastn (Z.to_nat 3)
            (repeat 255 (Z.to_nat 3) ++ map (stored_sample false) [1; 2; 3; 4]) /\
    debouncedState d =
      and_all (lastn (Z.to_nat 3)
                 (repeat 255 (Z.to_nat 3) ++ map (stored_sample false) [1; 2; 3; 4])).
Proof.
  apply (ring_buffer_holds_last_samples 3 false (blank 3) [1; 2; 3; 4]);
    [lia | reflexivity].
Defined.

Lemma prior_state_forgotten_witness :
  exists d1' d2',
    ButtonProcess_each 3 true [254; 255; 254; 255] (mkDebouncer [1; 2; 3] 0 7 7)
      = Done tt d1' /\
    ButtonProcess_each 3 true [254; 255; 254; 255] (mkDebouncer [9; 9; 9] 2 0 0)
      = Done tt d2' /\
    debouncedState d1' =
      and_all (lastn (Z.to_nat 3) (map (stored_sample true) [254; 255; 254; 255])) /\
    debouncedState d2' = debouncedState d1' /\
    value (ButtonDebouncedStateGet true d1') = value (ButtonDebouncedStateGet true d2') /\
    ((Z.to_nat 3 < length [254; 255; 254; 255])%nat ->
     changed d1' = changed d2' /\
     forall q, value (ask true q d1') = value (ask true q d2')).
Proof.
  apply (prior_state_forgotten 3 true (mkDebouncer [1; 2; 3] 0 7 7)
           (mkDebouncer [9; 9; 9] 2 0 0) [254; 255; 254; 255]);
    [lia | split; [reflexivity | simpl; lia] | split; [reflexivity | simpl; lia]
    | simpl; lia].
Defined.

Lemma steady_level_read_back_witness :
  exists d',
    ButtonProcess_each 3 false (repeat 5 4) (mkDebouncer [1; 2; 3] 1 0 0)
      = Done tt d' /\
    value (ButtonDebouncedStateGet false d') = Some 5 /\
    ((Z.to_nat 3 < 4)%nat ->
     changed d' = 0 /\
     forall pin, value (ButtonPressed pin d') = Some false /\
                 value (ButtonReleased pin d') = Some false).
Proof.
  apply (steady_level_read_back 3 false (mkDebouncer [1; 2; 3] 1 0 0) 5 4);
    [lia | split; [reflexivity | simpl; lia] | unfold is_uint8; lia | simpl; lia].
Defined.

Lemma press_taken_at_once_witness :
  exists d',
    ButtonProcess 3 true 254 (mkDebouncer [255; 255; 255] 2 255 0) = Done tt d' /\
    reads_pressed true d' 0 = true /\
    value (ButtonPressed (pin_mask 0) d') = Some (Z.testbit 255 0) /\
    value (ButtonReleased (pin_mask 0) d') = Some false.
Proof.
  apply (press_taken_at_once 3 true (mkDebouncer [255; 255; 255] 2 255 0) 254 0);
    [lia | split; [reflexivity | simpl; lia] | lia | reflexivity].
Defined.

Lemma pressed_iff_pressed_sample_in_window_witness :
  exists d,
    session 3 true [254; 255; 255] (blank 3) = Done tt d /\
    reads_pressed true d 0 =
      existsb (fun x => raw_pressed true x 0) (lastn (Z.to_nat 3) [254; 255; 255]).
Proof.
  apply (pressed_iff_pressed_sample_in_window 3 true (blank 3) [254; 255; 255] 0);
    [lia | reflexivity | lia].
Defined.

Lemma press_edge_iff_witness :
  exists d,
    session 3 true ([255; 255] ++ [254]) (blank 3) = Done tt d /\
    value (ButtonPressed (pin_mask 0) d) =
      Some (raw_pressed true 254 0 &&
            forallb (fun y => negb (raw_pressed true y 0))
                    (lastn (Z.to_nat 3) [255; 255])).
Proof.
  apply (press_edge_iff 3 true (blank 3) [255; 255] 254 0);
    [lia | reflexivity | lia].
Defined.

Lemma release_edge_iff_witness :
  exists d,
    session 3 true ([] ++ 254 :: [255; 255] ++ [255]) (blank 3) = Done tt d /\
    value (ButtonReleased (pin_mask 0) d) =
      Some (raw_pressed true 254 0 &&
            forallb (fun y => negb (raw_pressed true y 0)) ([255; 255] ++ [255])).
Proof.
  apply (release_edge_iff 3 true (blank 3) [] 254 [255; 255] 255 0);
    [lia | reflexivity | lia | reflexivity].
Defined.

Lemma no_release_within_first_window_witness :
  exists d,
    session 3 true [254; 255; 255] (blank 3) = Done tt d /\
    forall pin, value (ButtonReleased pin d) = Some false.
Proof.
  apply (no_release_within_first_window 3 true (blank 3) [254; 255; 255]);
    [lia | reflexivity | simpl; lia].
Defined.

Lemma StateGet_is_and_or_of_raw_samples_witness :
  exists d,
    session 3 false [1; 2; 4] (blank 3) = Done tt d /\
    value (ButtonDebouncedStateGet false d) =
      Some (or_all (lastn (Z.to_nat 3) (repeat 0 (Z.to_nat 3) ++ [1; 2; 4]))).
Proof.
  apply (StateGet_is_and_or_of_raw_samples 3 false (blank 3) [1; 2; 4]);
    [lia | reflexivity | reflexivity].
Defined.

Lemma edges_balance_witness :
  exists answers d',
    poll 3 true (pin_mask 0) [254; 255; 255; 255; 254] (idle 3) = Done answers d' /\
    ButtonProcess_each 3 true [254; 255; 255; 255; 254] (idle 3) = Done tt d' /\
    length answers = length [254; 255; 255; 255; 254] /\
    (tally (map fst answers) + (if reads_pressed true (idle 3) 0 then 1 else 0) =
     tally (map snd answers) + (if reads_pressed true d' 0 then 1 else 0))%nat.
Proof.
  apply (edges_balance 3 true [254; 255; 255; 255; 254] (idle 3) 0);
    [lia | split; [reflexivity | simpl; lia] | lia].
Defined.

Lemma too_many_checks_never_return_witness :
  Debouncer_ctor 256 (blank 256) = Diverges.
Proof.
  apply (proj1 (too_many_checks_never_return 256 true ltac:(lia))).
  reflexivity.
Defined.

Lemma no_checks_write_out_of_bounds_witness :
  exists d,
    Debouncer_ctor 0 (blank 0) = Done tt d /\
    forall portStatus, ButtonProcess 0 true portStatus d = Undefined.
Proof.
  apply (no_checks_write_out_of_bounds 0 true (blank 0)); reflexivity.
Defined.



Lemma CONSTRAIN_negative_int_unsigned_bounds_witness :
  less 16 (mkCint true (-1)) (mkCint false 0) = false /\
  CONSTRAIN 16 (mkCint true (-1)) (mkCint false 0) (mkCint false 10) = mkCint false 10.
Proof.
  apply (CONSTRAIN_negative_int_unsigned_bounds 16 (mkCint true (-1))
           (mkCint false 0) (mkCint false 10));
    [lia | reflexivity | reflexivity | reflexivity | reflexivity | reflexivity
    | reflexivity | simpl; lia | simpl; lia | simpl; lia].
Defined.


Lemma edges_agree_with_state_witness :
  (value (ButtonPressed (pin_mask 0) (mkDebouncer [254; 255; 255] 1 254 1))
     = Some true ->
   reads_pressed true (mkDebouncer [254; 255; 255] 1 254 1) 0 = true) /\
  (value (ButtonReleased (pin_mask 0) (mkDebouncer [254; 255; 255] 1 254 1))
     = Some true ->
   reads_pressed true (mkDebouncer [254; 255; 255] 1 254 1) 0 = false).
Proof.
  apply (edges_agree_with_state true (mkDebouncer [254; 255; 255] 1 254 1) 0). lia.
Defined.
